(** * Air-quality back end ([server.js]): the data-resolution pipeline

    A shallow embedding of the helpers, the forecast and recommendation
    generators, the OpenAQ adapter, the resolver [getAirQualityData] and the
    [/api/health] route of [server.js], with the properties the specification
    states about them.

    Modelling choices, all visible in the definitions below:
    - a JavaScript number is [NaN], an infinity or a finite value; finite
      values are exact rationals ([Q]), so the rounding error of binary64
      arithmetic and the sign of zero are not represented;
    - JavaScript values that reach the code dynamically typed (the body of the
      provider's response, the result of a property lookup) are terms of
      [value]; property lookup follows the prototype chain up to
      [Object.prototype];
    - an exception is an explicit [Throw] outcome, [try]/[catch] is
      [try_catch];
    - [Math.random], the clock and the network are fields of an explicit
      [world] that is threaded through the effectful functions. *)

From Stdlib Require Import QArith Qround ZArith String Ascii List Bool Lia Lqa.
From Stdlib Require Import DecimalString DecimalNat.
Import ListNotations.

Set Warnings "-register-all".

Local Open Scope string_scope.
Local Open Scope Q_scope.

(** ** Numbers *)

Inductive number : Type :=
| NaN
| NegInf
| PosInf
| Fin (q : Q).

Declare Scope number_scope.
Delimit Scope number_scope with num.
Bind Scope number_scope with number.

Definition is_NaN (a : number) : bool :=
  match a with NaN => true | _ => false end.

(** [a <= b] on numbers: false as soon as one side is [NaN]. *)
Definition nle (a b : number) : bool :=
  match a, b with
  | NaN, _ | _, NaN => false
  | NegInf, _ => true
  | _, PosInf => true
  | Fin x, Fin y => Qle_bool x y
  | _, _ => false
  end.

(** [a < b] on numbers. *)
Definition nlt (a b : number) : bool :=
  match a, b with
  | NaN, _ | _, NaN => false
  | NegInf, NegInf => false
  | NegInf, _ => true
  | PosInf, _ => false
  | Fin _, NegInf => false
  | Fin _, PosInf => true
  | Fin x, Fin y => negb (Qle_bool y x)
  end.

Definition nopp (a : number) : number :=
  match a with
  | NaN => NaN
  | NegInf => PosInf
  | PosInf => NegInf
  | Fin x => Fin (- x)
  end.

Definition nadd (a b : number) : number :=
  match a, b with
  | NaN, _ | _, NaN => NaN
  | PosInf, NegInf | NegInf, PosInf => NaN
  | PosInf, _ | _, PosInf => PosInf
  | NegInf, _ | _, NegInf => NegInf
  | Fin x, Fin y => Fin (x + y)
  end.

Definition nsub (a b : number) : number := nadd a (nopp b).

(** The sign of an infinity times a finite factor; [0 * Infinity] is [NaN]. *)
Definition scale_inf (positive : bool) (x : Q) : number :=
  if Qeq_bool x 0 then NaN
  else if Bool.eqb positive (Qle_bool 0 x) then PosInf else NegInf.

Definition nmul (a b : number) : number :=
  match a, b with
  | NaN, _ | _, NaN => NaN
  | Fin x, Fin y => Fin (x * y)
  | PosInf, PosInf | NegInf, NegInf => PosInf
  | PosInf, NegInf | NegInf, PosInf => NegInf
  | PosInf, Fin x | Fin x, PosInf => scale_inf true x
  | NegInf, Fin x | Fin x, NegInf => scale_inf false x
  end.

Infix "+" := nadd : number_scope.
Infix "-" := nsub : number_scope.
Infix "*" := nmul : number_scope.
Infix "<=?" := nle : number_scope.
Infix "<?" := nlt : number_scope.

(** [Math.max(a, b)] and [Math.min(a, b)]: [NaN] if either argument is. *)
Definition Math_max (a b : number) : number :=
  if is_NaN a || is_NaN b then NaN else if nle a b then b else a.

Definition Math_min (a b : number) : number :=
  if is_NaN a || is_NaN b then NaN else if nle a b then a else b.

(** [Math.round]: the nearest integer, halves rounded up. *)
Definition Math_round (a : number) : number :=
  match a with
  | Fin x => Fin (inject_Z (Qfloor (x + 0.5)))
  | _ => a
  end.

(** [ToBoolean] of a number: [0] and [NaN] are falsy. *)
Definition number_truthy (a : number) : bool :=
  match a with
  | NaN => false
  | Fin x => negb (Qeq_bool x 0)
  | _ => true
  end.

Definition of_nat (n : nat) : number := Fin (inject_Z (Z.of_nat n)).

(** ** Strings

    Strings are byte strings holding UTF-8 text.  The two string methods the
    program calls are [location.split(',')[0]] and [trim]. *)

Definition bytes (codes : list nat) : string :=
  fold_right (fun n s => String (ascii_of_nat n) s) EmptyString codes.

(** The white space and line terminators of ECMAScript, in UTF-8. *)
Definition white_space : list string :=
  map bytes
    [ [9]; [10]; [11]; [12]; [13]; [32]; [194; 160]; [225; 154; 128];
      [226; 128; 128]; [226; 128; 129]; [226; 128; 130]; [226; 128; 131];
      [226; 128; 132]; [226; 128; 133]; [226; 128; 134]; [226; 128; 135];
      [226; 128; 136]; [226; 128; 137]; [226; 128; 138]; [226; 128; 168];
      [226; 128; 169]; [226; 128; 175]; [226; 129; 159]; [227; 128; 128];
      [239; 187; 191] ]%nat.

Fixpoint strip_prefix (p s : string) : option string :=
  match p, s with
  | EmptyString, _ => Some s
  | String a p', String b s' => if Ascii.eqb a b then strip_prefix p' s' else None
  | String _ _, EmptyString => None
  end.

Fixpoint strip_any (tokens : list string) (s : string) : option string :=
  match tokens with
  | [] => None
  | t :: rest =>
      match strip_prefix t s with
      | Some r => Some r
      | None => strip_any rest s
      end
  end.

Fixpoint strip_all (fuel : nat) (tokens : list string) (s : string) : string :=
  match fuel with
  | O => s
  | S k =>
      match strip_any tokens s with
      | Some r => strip_all k tokens r
      | None => s
      end
  end.

Definition reverse (s : string) : string :=
  string_of_list_ascii (rev (list_ascii_of_string s)).

Definition trimStart (s : string) : string :=
  strip_all (String.length s) white_space s.

Definition trimEnd (s : string) : string :=
  reverse (strip_all (String.length s) (map reverse white_space) (reverse s)).

(** [s.trim()]. *)
Definition trim (s : string) : string := trimEnd (trimStart s).

(** [s.split(',')[0]]: the text before the first comma, all of [s] when it
    has none. *)
Fixpoint split_comma_first (s : string) : string :=
  match s with
  | EmptyString => EmptyString
  | String c r =>
      if Ascii.eqb c "," then EmptyString else String c (split_comma_first r)
  end.

(** ** Values, exceptions and property lookup *)

Inductive value : Type :=
| Undefined
| Null
| Bool (b : bool)
| Num (n : number)
| Str (s : string)
| Arr (elems : list value)
| Obj (props : list (string * value))
| Builtin (name : string).

Inductive exn : Type :=
| TypeError (message : string)
| RequestFailed (message : string).

Inductive completion (A : Type) : Type :=
| Normal (a : A)
| Throw (e : exn).

Arguments Normal {A} a.
Arguments Throw {A} e.

Definition bind {A B : Type} (c : completion A) (k : A -> completion B)
  : completion B :=
  match c with
  | Normal a => k a
  | Throw e => Throw e
  end.

Declare Scope js_scope.
Delimit Scope js_scope with js.
Notation "x <- c ;; k" := (bind c (fun x => k))
  (at level 100, c at next level, right associativity) : js_scope.
Local Open Scope js_scope.

(** The properties every object inherits from [Object.prototype]. A lookup
    that finds none of the object's own properties under the name yields the
    inherited member: a built-in function, or [Object.prototype] itself for
    [__proto__]. *)
Definition Object_prototype : list string :=
  [ "constructor"; "__defineGetter__"; "__defineSetter__"; "hasOwnProperty";
    "__lookupGetter__"; "__lookupSetter__"; "isPrototypeOf";
    "propertyIsEnumerable"; "toString"; "valueOf"; "__proto__";
    "toLocaleString" ].

Definition inherited (key : string) : value :=
  if existsb (String.eqb key) Object_prototype then Builtin key else Undefined.

Fixpoint own (props : list (string * value)) (key : string) : option value :=
  match props with
  | [] => None
  | (k, v) :: rest => if String.eqb k key then Some v else own rest key
  end.

Definition has_own (props : list (string * value)) (key : string) : bool :=
  match own props key with Some _ => true | None => false end.

Definition is_digit (c : ascii) : bool :=
  let n := nat_of_ascii c in (48 <=? n)%nat && (n <=? 57)%nat.

Fixpoint digits_value (acc : nat) (s : string) : option nat :=
  match s with
  | EmptyString => Some acc
  | String c r =>
      if is_digit c then digits_value (10 * acc + (nat_of_ascii c - 48))%nat r
      else None
  end.

(** A property name that is an array index: decimal digits, no leading zero. *)
Definition array_index (key : string) : option nat :=
  match key with
  | EmptyString => None
  | String "0" EmptyString => Some O
  | String "0" _ => None
  | _ => digits_value 0 key
  end.

Fixpoint char_at (s : string) (i : nat) : value :=
  match s, i with
  | EmptyString, _ => Undefined
  | String c _, O => Str (String c EmptyString)
  | String _ r, S j => char_at r j
  end.

(** [v[key]] and [v.key]. Reading a property of [undefined] or [null] throws;
    an object answers with its own property or the inherited one; arrays and
    strings have [length] and their indices. Of the members a value inherits,
    those of [Object.prototype] are modelled; the program reads no member of
    [Array.prototype], [String.prototype] or of a built-in function by name
    (it calls [forEach], [split] and [trim], modelled as functions). The
    [length] of a string counts bytes here and UTF-16 code units in
    JavaScript; both are zero for the empty string only. *)
Definition Get (v : value) (key : string) : completion value :=
  match v with
  | Undefined => Throw (TypeError "Cannot read properties of undefined")
  | Null => Throw (TypeError "Cannot read properties of null")
  | Obj props =>
      Normal (match own props key with Some x => x | None => inherited key end)
  | Arr elems =>
      Normal (if String.eqb key "length" then Num (of_nat (List.length elems))
              else match array_index key with
                   | Some i => nth i elems Undefined
                   | None => inherited key
                   end)
  | Str s =>
      Normal (if String.eqb key "length" then Num (of_nat (String.length s))
              else match array_index key with
                   | Some i => char_at s i
                   | None => inherited key
                   end)
  | Bool _ | Num _ | Builtin _ => Normal (inherited key)
  end.

(** [v?.key]. *)
Definition optional_Get (v : value) (key : string) : completion value :=
  match v with
  | Undefined | Null => Normal Undefined
  | _ => Get v key
  end.

(** [ToBoolean]. *)
Definition truthy (v : value) : bool :=
  match v with
  | Undefined | Null => false
  | Bool b => b
  | Num n => number_truthy n
  | Str s => negb (String.eqb s "")
  | Arr _ | Obj _ | Builtin _ => true
  end.

(** [a || b] where [b] has no effect. *)
Definition or_else (a b : value) : value := if truthy a then a else b.

(** [o[key] = v] on an ordinary object given by its own properties. Assigning
    to [__proto__] (with an object on the right, the only case in the program)
    replaces the prototype and creates no own property; the prototype set that
    way holds [value], [unit] and [status] only, none of which the program
    looks up through it. *)
Fixpoint put (props : list (string * value)) (key : string) (v : value)
  : list (string * value) :=
  match props with
  | [] => [(key, v)]
  | (k, x) :: rest =>
      if String.eqb k key then (k, v) :: rest else (k, x) :: put rest key v
  end.

Definition Set_ (props : list (string * value)) (key : string) (v : value)
  : list (string * value) :=
  if String.eqb key "__proto__" then props else put props key v.

(** ** Data model

    The records the program builds: an entry of the forecast, what the
    adapter returns when it has data, and the reading the resolver returns. *)

Module ForecastDay.
Record t : Type := {
  day : string;
  aqi : number;
  category : string
}.
End ForecastDay.

(** What [getOpenAQData] returns when it has data. *)
Module Snapshot.
Record t : Type := {
  aqi : number;
  category : string;
  location : string;
  pollutants : value;
  lastUpdated : value
}.
End Snapshot.

Module Reading.
Record t : Type := {
  aqi : number;
  category : string;
  location : string;
  pollutants : value;
  forecast : list ForecastDay.t;
  healthRecommendations : list string;
  lastUpdated : value
}.
End Reading.

(** A measurement of the provider as the interface documents it. *)
Module Measurement.
Record t : Type := {
  parameter : string;
  value : number;
  unit : string;
  datetime : string
}.
End Measurement.

(** ** Conversions

    [Number::toString] and [StringToNumber] belong to the runtime and are
    parameters of the model: everything from here to the end of the section
    holds for whatever the runtime computes there. *)

Section Server.

Variable NumberToString : number -> string.
Variable StringToNumber : string -> number.

(** The text of a built-in: engine-defined for functions (this is V8's). *)
Definition BuiltinToString (name : string) : string :=
  if String.eqb name "__proto__" then "[object Object]"
  else "function " ++ (if String.eqb name "constructor" then "Object" else name)
       ++ "() { [native code] }".

(** [ToString]. An array is joined with commas, [undefined] and [null]
    elements giving the empty string. An object born from JSON has no callable
    property of its own: when it has its own [toString], neither [toString]
    nor the inherited [valueOf] yields a primitive and the conversion throws;
    otherwise [Object.prototype.toString] answers. *)
Fixpoint ToString (v : value) : completion string :=
  match v with
  | Undefined => Normal "undefined"
  | Null => Normal "null"
  | Bool true => Normal "true"
  | Bool false => Normal "false"
  | Num n => Normal (NumberToString n)
  | Str s => Normal s
  | Arr elems =>
      (fix join (l : list value) : completion string :=
         match l with
         | [] => Normal ""
         | x :: rest =>
             s <- match x with
                  | Undefined | Null => Normal ""
                  | _ => ToString x
                  end ;;
             match rest with
             | [] => Normal s
             | _ :: _ => t <- join rest ;; Normal (s ++ "," ++ t)
             end
         end) elems
  | Obj props =>
      if has_own props "toString"
      then Throw (TypeError "Cannot convert object to primitive value")
      else Normal "[object Object]"
  | Builtin name => Normal (BuiltinToString name)
  end.

(** [ToPrimitive], the same for both hints on these values. *)
Definition ToPrimitive (v : value) : completion value :=
  match v with
  | Arr _ | Obj _ | Builtin _ => s <- ToString v ;; Normal (Str s)
  | _ => Normal v
  end.

(** [ToPropertyKey]. *)
Definition ToPropertyKey (v : value) : completion string := ToString v.

(** [ToNumber]. *)
Definition ToNumber (v : value) : completion number :=
  p <- ToPrimitive v ;;
  Normal (match p with
          | Undefined => NaN
          | Null => Fin 0
          | Bool true => Fin 1
          | Bool false => Fin 0
          | Num n => n
          | Str s => StringToNumber s
          | Arr _ | Obj _ | Builtin _ => NaN
          end).

(** [a <= b]: two strings compare as strings (by bytes here, by UTF-16 code
    units in JavaScript), anything else as numbers. *)
Definition js_le (a b : value) : completion bool :=
  pa <- ToPrimitive a ;;
  pb <- ToPrimitive b ;;
  match pa, pb with
  | Str x, Str y => Normal (String.leb x y)
  | _, _ => na <- ToNumber pa ;; nb <- ToNumber pb ;; Normal (nle na nb)
  end.

(** [a > b]. *)
Definition js_gt (a b : value) : completion bool :=
  pa <- ToPrimitive a ;;
  pb <- ToPrimitive b ;;
  match pa, pb with
  | Str x, Str y => Normal (String.ltb y x)
  | _, _ => na <- ToNumber pa ;; nb <- ToNumber pb ;; Normal (nlt nb na)
  end.

(** [a * b]. *)
Definition js_mul (a b : value) : completion number :=
  na <- ToNumber a ;; nb <- ToNumber b ;; Normal (nmul na nb).

(** [a + b]: concatenation when either side is a string once primitive. *)
Definition js_add (a b : value) : completion value :=
  pa <- ToPrimitive a ;;
  pb <- ToPrimitive b ;;
  match pa, pb with
  | Str _, _ | _, Str _ =>
      x <- ToString pa ;; y <- ToString pb ;; Normal (Str (x ++ y))
  | _, _ => na <- ToNumber pa ;; nb <- ToNumber pb ;; Normal (Num (nadd na nb))
  end.

(** ** Mock data *)

Definition cityData : value :=
  Obj
    [ ("New York, NY",
       Obj [ ("aqi", Num (Fin 78)); ("category", Str "moderate");
             ("pollutants",
              Obj [ ("pm25", Obj [ ("value", Num (Fin 12.3));
                                   ("unit", Str "µg/m³");
                                   ("status", Str "Good") ]) ]) ]);
      ("Delhi, India",
       Obj [ ("aqi", Num (Fin 245)); ("category", Str "very-unhealthy");
             ("pollutants",
              Obj [ ("pm25", Obj [ ("value", Num (Fin 45.6));
                                   ("unit", Str "µg/m³");
                                   ("status", Str "Very Unhealthy") ]) ]) ]);
      ("London, UK",
       Obj [ ("aqi", Num (Fin 55)); ("category", Str "moderate");
             ("pollutants",
              Obj [ ("pm25", Obj [ ("value", Num (Fin 11.2));
                                   ("unit", Str "µg/m³");
                                   ("status", Str "Good") ]) ]) ]) ].

(** ** Helpers *)

Definition getAQICategory (aqi : number) : string :=
  if nle aqi (Fin 50) then "good"
  else if nle aqi (Fin 100) then "moderate"
  else if nle aqi (Fin 150) then "unhealthy-sensitive"
  else if nle aqi (Fin 200) then "unhealthy"
  else if nle aqi (Fin 300) then "very-unhealthy"
  else "hazardous".

Definition thresholds : value :=
  Obj
    [ ("pm25", Obj [ ("good", Num (Fin 12)); ("moderate", Num (Fin 35)) ]);
      ("pm10", Obj [ ("good", Num (Fin 54)); ("moderate", Num (Fin 154)) ]);
      ("o3", Obj [ ("good", Num (Fin 54)); ("moderate", Num (Fin 70)) ]);
      ("no2", Obj [ ("good", Num (Fin 53)); ("moderate", Num (Fin 100)) ]);
      ("so2", Obj [ ("good", Num (Fin 35)); ("moderate", Num (Fin 75)) ]);
      ("co", Obj [ ("good", Num (Fin 4.4)); ("moderate", Num (Fin 9.4)) ]) ].

Definition getStatusFromValue (pollutant val : value) : completion string :=
  key <- ToPropertyKey pollutant ;;
  row <- Get thresholds key ;;
  good <- optional_Get row "good" ;;
  below_good <- js_le val good ;;
  if below_good : bool then Normal "Good"
  else
    key' <- ToPropertyKey pollutant ;;
    row' <- Get thresholds key' ;;
    moderate <- optional_Get row' "moderate" ;;
    below_moderate <- js_le val moderate ;;
    if below_moderate : bool then Normal "Moderate" else Normal "Unhealthy".

(** ** The world: random source, clock and network *)

Inductive reply : Type :=
| Rejected (message : string)
| Resolved (data : value).

(** [random] is the sequence of results [Math.random] gives, [drawn] how many
    of them were consumed; [now] is what [new Date().toISOString()] returns;
    [axios_get] is the outcome of the measurements request for a city
    ([Rejected] for a transport error or a status outside 2xx, [Resolved]
    with [response.data] otherwise). *)
Record world : Type := {
  random : nat -> Q;
  drawn : nat;
  now : string;
  axios_get : string -> reply
}.

Definition Math_random (w : world) : number * world :=
  (Fin (random w (drawn w)),
   {| random := random w; drawn := S (drawn w); now := now w;
      axios_get := axios_get w |}).

(** ** Forecast and recommendations *)

Definition days : list string :=
  ["Today"; "Tomorrow"; "Wed"; "Thu"; "Fri"; "Sat"].

Definition factor_variation : number := Fin 20.
Definition factor_trend : number := Fin 1.05.

(** The body of [days.forEach]: the state is [currentAqi], the [forecast]
    array built so far, and the world. *)
Definition forecast_step (st : number * list ForecastDay.t * world)
  (day : string) : number * list ForecastDay.t * world :=
  let '(currentAqi, forecast, w) := st in
  let (r, w') := Math_random w in
  let variation := ((r - Fin 0.5) * factor_variation)%num in
  let currentAqi' :=
    Math_max (Fin 10)
      (Math_min (Fin 400) (currentAqi * factor_trend + variation)%num) in
  (currentAqi',
   (forecast ++ [ {| ForecastDay.day := day;
                     ForecastDay.aqi := Math_round currentAqi';
                     ForecastDay.category := getAQICategory currentAqi' |} ])%list,
   w').

Definition generateForecast (baseAqi : number) (location : string) (w : world)
  : list ForecastDay.t * world :=
  let '(_, forecast, w') := fold_left forecast_step days (baseAqi, [], w) in
  (forecast, w').

Definition generateHealthRecommendations (aqi : number) : list string :=
  if nle aqi (Fin 50) then ["Ideal air quality for outdoor activities"]
  else if nle aqi (Fin 100) then ["Air quality is acceptable for most people"]
  else if nle aqi (Fin 150)
       then ["Sensitive groups should reduce outdoor activities"]
  else if nle aqi (Fin 200) then ["Everyone may experience health effects"]
  else ["Health warnings — avoid outdoor activities"].

(** ** The OpenAQ adapter *)

(** The body of [results.forEach]: the key and the entry stored under it. *)
Definition measurement_entry (m : value) : completion (string * value) :=
  parameter <- Get m "parameter" ;;
  key <- ToPropertyKey parameter ;;
  val <- Get m "value" ;;
  unit <- Get m "unit" ;;
  parameter' <- Get m "parameter" ;;
  val' <- Get m "value" ;;
  status <- getStatusFromValue parameter' val' ;;
  Normal (key, Obj [ ("value", val); ("unit", unit); ("status", Str status) ]).

Fixpoint store_measurements (ms : list value)
  (pollutants : list (string * value)) : completion (list (string * value)) :=
  match ms with
  | [] => Normal pollutants
  | m :: rest =>
      e <- measurement_entry m ;;
      store_measurements rest (Set_ pollutants (fst e) (snd e))
  end.

(** [results.forEach(m => ...)]: only an array has the method; calling what
    the lookup gives on any other value throws. *)
Definition forEach_measurement (results : value)
  (pollutants : list (string * value)) : completion (list (string * value)) :=
  match results with
  | Arr ms => store_measurements ms pollutants
  | _ => Throw (TypeError "response.data.results.forEach is not a function")
  end.

(** The [try] block, from the point where [axios.get] settles. [None] is the
    case where the block ends without returning. *)
Definition getOpenAQData_try (cityName : string) (response : reply)
  : completion (option Snapshot.t) :=
  match response with
  | Rejected message => Throw (RequestFailed message)
  | Resolved data =>
      results <- Get data "results" ;;
      nonempty <- (if truthy results
                   then results' <- Get data "results" ;;
                        len <- Get results' "length" ;;
                        js_gt len (Num (Fin 0))
                   else Normal false) ;;
      if nonempty : bool then
        results <- Get data "results" ;;
        latestData <- Get results "0" ;;
        results' <- Get data "results" ;;
        pollutants <- forEach_measurement results' [] ;;
        entry <- Get (Obj pollutants) "pm25" ;;
        reading <- optional_Get entry "value" ;;
        let pm25 := or_else reading (Num (Fin 15)) in
        scaled <- js_mul pm25 (Num (Fin 5)) ;;
        let calculatedAqi := Math_min (Fin 500) (Math_max (Fin 0) scaled) in
        lastUpdated <- Get latestData "datetime" ;;
        Normal (Some {| Snapshot.aqi := Math_round calculatedAqi;
                        Snapshot.category := getAQICategory calculatedAqi;
                        Snapshot.location := cityName;
                        Snapshot.pollutants := Obj pollutants;
                        Snapshot.lastUpdated := lastUpdated |})
      else Normal None
  end.

(** [try { body } catch (error) { handler }]. *)
Definition try_catch {A : Type} (body : completion A)
  (handler : exn -> completion A) : completion A :=
  match body with
  | Normal a => Normal a
  | Throw e => handler e
  end.

(** The handler logs the error and control reaches [return null]. *)
Definition getOpenAQData (location : string) (w : world)
  : completion (option Snapshot.t) :=
  let cityName := trim (split_comma_first location) in
  try_catch (getOpenAQData_try cityName (axios_get w cityName))
    (fun error => Normal None).

(** ** The resolver *)

(** [cityData[location] || cityData['New York, NY']]. *)
Definition fallback_entry (location : string) : completion value :=
  entry <- Get cityData location ;;
  if truthy entry then Normal entry else Get cityData "New York, NY".

(** The second half of [getAirQualityData], taken when the adapter returned
    [null]. *)
Definition fallback_reading (location : string) (w : world)
  : completion (Reading.t * world) :=
  fallback <- fallback_entry location ;;
  let (r, w1) := Math_random w in
  let variation := ((r - Fin 0.5) * Fin 10)%num in
  base <- Get fallback "aqi" ;;
  sum <- js_add base (Num variation) ;;
  perturbed <- ToNumber sum ;;
  let currentAqi := Math_max (Fin 0) perturbed in
  pollutants <- Get fallback "pollutants" ;;
  let (forecast, w2) := generateForecast currentAqi location w1 in
  Normal ({| Reading.aqi := Math_round currentAqi;
             Reading.category := getAQICategory currentAqi;
             Reading.location := location;
             Reading.pollutants := pollutants;
             Reading.forecast := forecast;
             Reading.healthRecommendations :=
               generateHealthRecommendations currentAqi;
             Reading.lastUpdated := Str (now w2) |}, w2).

Definition getAirQualityData (location : string) (w : world)
  : completion (Reading.t * world) :=
  openAQData <- getOpenAQData location w ;;
  match openAQData with
  | Some data =>
      let (forecast, w1) := generateForecast (Snapshot.aqi data) location w in
      Normal ({| Reading.aqi := Snapshot.aqi data;
                 Reading.category := Snapshot.category data;
                 Reading.location := Snapshot.location data;
                 Reading.pollutants := Snapshot.pollutants data;
                 Reading.forecast := forecast;
                 Reading.healthRecommendations :=
                   generateHealthRecommendations (Snapshot.aqi data);
                 Reading.lastUpdated := Snapshot.lastUpdated data |}, w1)
  | None => fallback_reading location w
  end.

(** ** Routes *)

Definition digit_value (radix : nat) (c : ascii) : option Z :=
  let n := nat_of_ascii c in
  let d := if (48 <=? n)%nat && (n <=? 57)%nat then Some (n - 48)%nat
           else if (97 <=? n)%nat && (n <=? 122)%nat then Some (n - 87)%nat
           else if (65 <=? n)%nat && (n <=? 90)%nat then Some (n - 55)%nat
           else None in
  match d with
  | Some k => if (k <? radix)%nat then Some (Z.of_nat k) else None
  | None => None
  end.

(** The value of the longest prefix of [s] made of digits of [radix], [acc]
    when there is none. *)
Fixpoint parse_digits (radix : nat) (s : string) (acc : option Z) : option Z :=
  match s with
  | EmptyString => acc
  | String c r =>
      match digit_value radix c with
      | Some d =>
          parse_digits radix r
            (Some (Z.of_nat radix * match acc with Some a => a | None => 0 end
                   + d)%Z)
      | None => acc
      end
  end.

(** [parseInt(input)] with no radix argument: leading white space, a sign, a
    [0x] prefix selecting radix 16, then digits; [NaN] without a digit. As
    everywhere in this model the result is the exact integer; the runtime
    returns the nearest binary64 number, which is the same integer up to
    2^53 in absolute value. *)
Definition parseInt (input : string) : number :=
  let s := trimStart input in
  let (negative, s1) :=
    match s with
    | String "-" r => (true, r)
    | String "+" r => (false, r)
    | _ => (false, s)
    end in
  let (radix, s2) :=
    match s1 with
    | String "0" (String "x" r) | String "0" (String "X" r) => (16%nat, r)
    | _ => (10%nat, s1)
    end in
  match parse_digits radix s2 None with
  | Some z => Fin (inject_Z (if negative : bool then - z else z))
  | None => NaN
  end.

(** A query parameter is absent or a string; [parseInt] converts its argument
    to a string first, and [undefined] reads ["undefined"]. *)
Definition query_text (q : option string) : string :=
  match q with
  | Some s => s
  | None => "undefined"
  end.

Record HealthResponse : Type := {
  recommendations : list string
}.

(** [app.get('/api/health')], given [req.query.aqi]. *)
Definition api_health (query_aqi : option string) : HealthResponse :=
  let parsed := parseInt (query_text query_aqi) in
  let aqi := if number_truthy parsed then parsed else Fin 50 in
  {| recommendations := generateHealthRecommendations aqi |}.

(** [req.query.location || 'New York, NY']. *)
Definition query_location (q : option string) : string :=
  match q with
  | Some s => if String.eqb s "" then "New York, NY" else s
  | None => "New York, NY"
  end.

(** [app.get('/api/air-quality')], given [req.query.location]. *)
Definition api_air_quality (query : option string) (w : world)
  : completion (Reading.t * world) :=
  getAirQualityData (query_location query) w.

(** [app.get('/api/forecast')]. *)
Definition api_forecast (query : option string) (w : world)
  : completion (list ForecastDay.t * world) :=
  r <- getAirQualityData (query_location query) w ;;
  Normal (Reading.forecast (fst r), snd r).

(** [Object.keys(o)] for an object given by its own properties: the keys that
    are array indices in ascending order, then the others in the order they
    were created. (An array index is below 2^32 - 1 in JavaScript; that bound
    is not modelled, and no key of [cityData] is numeric.) *)
Fixpoint insert_index (i : nat) (k : string) (l : list (nat * string))
  : list (nat * string) :=
  match l with
  | [] => [(i, k)]
  | (j, k') :: rest =>
      if (i <=? j)%nat then (i, k) :: l else (j, k') :: insert_index i k rest
  end.

Fixpoint index_keys (props : list (string * value)) : list (nat * string) :=
  match props with
  | [] => []
  | (k, _) :: rest =>
      match array_index k with
      | Some i => insert_index i k (index_keys rest)
      | None => index_keys rest
      end
  end.

Fixpoint name_keys (props : list (string * value)) : list string :=
  match props with
  | [] => []
  | (k, _) :: rest =>
      match array_index k with
      | Some _ => name_keys rest
      | None => k :: name_keys rest
      end
  end.

Definition Object_keys (props : list (string * value)) : list string :=
  (map snd (index_keys props) ++ name_keys props)%list.

(** [app.get('/api/locations')]: [Object.keys(cityData)]. *)
Definition api_locations : list string :=
  match cityData with
  | Obj props => Object_keys props
  | _ => []
  end.

(** ** Vocabulary of the properties

    What the statements below are written with. None of it is code of the
    server. *)

(** The severity order of the six bands. *)
Definition severity (category : string) : option nat :=
  if String.eqb category "good" then Some 0%nat
  else if String.eqb category "moderate" then Some 1%nat
  else if String.eqb category "unhealthy-sensitive" then Some 2%nat
  else if String.eqb category "unhealthy" then Some 3%nat
  else if String.eqb category "very-unhealthy" then Some 4%nat
  else if String.eqb category "hazardous" then Some 5%nat
  else None.

(** The keys of the two tables. *)
Definition known_pollutants : list string :=
  ["pm25"; "pm10"; "o3"; "no2"; "so2"; "co"].

Definition store_keys : list string :=
  ["New York, NY"; "Delhi, India"; "London, UK"].

(** The pollutants of the New York entry. *)
Definition new_york_pollutants : value :=
  Obj [ ("pm25", Obj [ ("value", Num (Fin 12.3)); ("unit", Str "µg/m³");
                       ("status", Str "Good") ]) ].




(** The recurrence of the forecast in the specification's words, to be
    compared with what [generateForecast] computes: [clamp], the noise made
    from one result of the random source, and the running value after [k]
    updates [next = clamp(current * 1.05 + noise, 10, 400)]. *)
Definition clamp (x lo hi : number) : number := Math_max lo (Math_min hi x).

Definition noise (r : Q) : number := ((Fin r - Fin 0.5) * Fin 20)%num.

Fixpoint running (seed : number) (draw : nat -> Q) (k : nat) : number :=
  match k with
  | O => seed
  | S k' =>
      clamp (running seed draw k' * Fin 1.05 + noise (draw k'))%num
        (Fin 10) (Fin 400)
  end.

(** Two worlds give [Math.random] the same results from here on. *)
Definition same_draws (w1 w2 : world) : Prop :=
  drawn w1 = drawn w2 /\ forall n : nat, random w1 n = random w2 n.

(** The number [fallback.aqi] stands for in the sum [fallback.aqi +
    variation]: itself, or [NaN] for [undefined]. *)
Definition base_number (base : value) : number :=
  match base with
  | Num b => b
  | _ => NaN
  end.

(** The JSON object of a well-formed measurement, the value of the last pm25
    measurement of a list, and the expression [pollutants.pm25?.value]. *)
Definition measurement_value (m : Measurement.t) : value :=
  Obj [ ("parameter", Str (Measurement.parameter m));
        ("value", Num (Measurement.value m));
        ("unit", Str (Measurement.unit m));
        ("datetime", Str (Measurement.datetime m)) ].

Fixpoint last_pm25 (ms : list Measurement.t) : option number :=
  match ms with
  | [] => None
  | m :: rest =>
      match last_pm25 rest with
      | Some v => Some v
      | None =>
          if String.eqb (Measurement.parameter m) "pm25"
          then Some (Measurement.value m) else None
      end
  end.

Definition pm25_reading (pollutants : list (string * value))
  : completion value :=
  entry <- Get (Obj pollutants) "pm25" ;; optional_Get entry "value".

(** Sample worlds: [w] with the provider unreachable, [w] with the provider
    answering [data] to every request, and the world whose random source
    always returns [r], with the provider unreachable. *)
Definition offline (w : world) : world :=
  {| random := random w; drawn := drawn w; now := now w;
     axios_get := fun _ => Rejected "Network Error" |}.

Definition answering (data : value) (w : world) : world :=
  {| random := random w; drawn := drawn w; now := now w;
     axios_get := fun _ => Resolved data |}.

Definition steady (r : Q) : world :=
  {| random := fun _ => r; drawn := 0; now := "2025-10-04T12:00:00.000Z";
     axios_get := fun _ => Rejected "Network Error" |}.


(** A response with one measurement: pm25 at 0 µg/m³. *)
Definition zero_pm25 : value :=
  Obj [ ("results",
         Arr [ Obj [ ("parameter", Str "pm25"); ("value", Num (Fin 0));
                     ("unit", Str "µg/m³");
                     ("datetime", Str "2025-10-04T12:00:00Z") ] ]) ].

(** ** Vocabulary of the further properties *)

(** The rows of [thresholds] as pairs of bounds, and the order of the three
    status labels. *)
Definition threshold_rows : list (string * (Q * Q)) :=
  [ ("pm25", (12, 35)); ("pm10", (54, 154)); ("o3", (54, 70));
    ("no2", (53, 100)); ("so2", (35, 75)); ("co", (4.4, 9.4)) ].

Definition status_rank (status : string) : option nat :=
  if String.eqb status "Good" then Some 0%nat
  else if String.eqb status "Moderate" then Some 1%nat
  else if String.eqb status "Unhealthy" then Some 2%nat
  else None.

(** The decimal numeral of a natural number, as a query string carries it. *)
Definition decimal (n : nat) : string :=
  NilEmpty.string_of_uint (Nat.to_uint n).

(** The last measurement of a list with a given parameter. *)
Fixpoint last_with (p : string) (ms : list Measurement.t)
  : option Measurement.t :=
  match ms with
  | [] => None
  | m :: rest =>
      match last_with p rest with
      | Some m' => Some m'
      | None => if String.eqb (Measurement.parameter m) p then Some m else None
      end
  end.

(** The entry [store_measurements] keeps for a measurement, given its
    status. *)
Definition pollutant_entry (m : Measurement.t) (status : string) : value :=
  Obj [ ("value", Num (Measurement.value m));
        ("unit", Str (Measurement.unit m));
        ("status", Str status) ].

(** Sample data: the snapshot the adapter builds from [zero_pm25], and a
    pm25 measurement with a given value. *)
Definition zero_pm25_snapshot : Snapshot.t :=
  {| Snapshot.aqi := Fin 75;
     Snapshot.category := "moderate";
     Snapshot.location := "Delhi";
     Snapshot.pollutants :=
       Obj [ ("pm25", Obj [ ("value", Num (Fin 0)); ("unit", Str "µg/m³");
                            ("status", Str "Good") ]) ];
     Snapshot.lastUpdated := Str "2025-10-04T12:00:00Z" |}.

Definition pm25_measurement (v : Q) : Measurement.t :=
  {| Measurement.parameter := "pm25"; Measurement.value := Fin v;
     Measurement.unit := "µg/m³";
     Measurement.datetime := "2025-10-04T12:00:00Z" |}.

(** * Properties *)

(** ** Facts about numbers *)

Lemma Qle_bool_false (x y : Q) : Qle_bool x y = false -> y < x.
Proof.
  intros H. apply Qnot_le_lt. intros Hle.
  apply Qle_bool_iff in Hle. congruence.
Qed.

Lemma nle_NaN_r (a : number) : nle a NaN = false.
Proof. destruct a; reflexivity. Qed.

(** Turns the outcome of every comparison in the context into an inequality
    of rationals. *)
Ltac order_facts :=
  repeat match goal with
    | H : Qle_bool _ _ = true |- _ => apply Qle_bool_iff in H
    | H : Qle_bool _ _ = false |- _ => apply Qle_bool_false in H
    end.

(** Splits on the comparisons a band function makes, first to last. *)
Ltac split_bands x :=
  destruct (Qle_bool x 50) eqn:?;
  [ | destruct (Qle_bool x 100) eqn:?;
      [ | destruct (Qle_bool x 150) eqn:?;
          [ | destruct (Qle_bool x 200) eqn:?;
              [ | destruct (Qle_bool x 300) eqn:? ] ] ] ].

(** ** The category classifier *)

(** C5. [getAQICategory] is a total function of the index with the six
    bands: [good] up to 50, [moderate] up to 100, [unhealthy-sensitive] up to
    150, [unhealthy] up to 200, [very-unhealthy] up to 300 and [hazardous]
    for everything else, which includes [Infinity] and [NaN]. *)
Theorem getAQICategory_bands :
  (forall i : Q, i <= 50 -> getAQICategory (Fin i) = "good") /\
  (forall i : Q, 50 < i <= 100 -> getAQICategory (Fin i) = "moderate") /\
  (forall i : Q,
      100 < i <= 150 -> getAQICategory (Fin i) = "unhealthy-sensitive") /\
  (forall i : Q, 150 < i <= 200 -> getAQICategory (Fin i) = "unhealthy") /\
  (forall i : Q, 200 < i <= 300 -> getAQICategory (Fin i) = "very-unhealthy") /\
  (forall i : Q, 300 < i -> getAQICategory (Fin i) = "hazardous") /\
  getAQICategory NegInf = "good" /\
  getAQICategory PosInf = "hazardous" /\
  getAQICategory NaN = "hazardous".
Proof.
  repeat split; try reflexivity; intros i Hi; unfold getAQICategory; simpl;
    split_bands i; order_facts; try reflexivity; exfalso; lra.
Qed.

(** C6. On indices between 0 and 500 the category is one of the six bands
    and its severity does not decrease when the index grows. *)
Theorem getAQICategory_monotone (i j : Q) :
  0 <= i -> i <= j -> j <= 500 ->
  exists si sj : nat,
    severity (getAQICategory (Fin i)) = Some si /\
    severity (getAQICategory (Fin j)) = Some sj /\
    (si <= sj)%nat.
Proof.
  intros H0 Hij H500. unfold getAQICategory; simpl.
  split_bands i; split_bands j; order_facts;
    try (exfalso; lra);
    (eexists; eexists; split; [reflexivity | split; [reflexivity | lia]]).
Qed.

(** ** The pollutant status classifier *)

Lemma thresholds_unknown (p : string) :
  ~ In p known_pollutants -> Get thresholds p = Normal (inherited p).
Proof.
  intros Hp. unfold thresholds, Get, own.
  repeat match goal with
    | |- context [String.eqb ?k p] =>
        destruct (String.eqb_spec k p) as [E | _];
        [ exfalso; apply Hp; rewrite <- E; simpl; auto 10 | ]
    end.
  reflexivity.
Qed.

(** What a lookup inherits has no property beyond the inherited ones. *)
Lemma inherited_has_no (p key : string) :
  inherited key = Undefined ->
  optional_Get (inherited p) key = Normal Undefined.
Proof.
  intros Hkey. unfold inherited at 1.
  destruct (existsb (String.eqb p) Object_prototype); simpl;
    [rewrite Hkey |]; reflexivity.
Qed.

(** C10. For a pollutant name outside the table and any number,
    [getStatusFromValue] completes normally with ['Unhealthy']: both
    threshold lookups give [undefined] and both comparisons are false. *)
Theorem getStatusFromValue_unknown (p : string) (n : number) :
  ~ In p known_pollutants ->
  getStatusFromValue (Str p) (Num n) = Normal "Unhealthy".
Proof.
  intros Hp. unfold getStatusFromValue, ToPropertyKey.
  cbn [ToString bind]. rewrite (thresholds_unknown p Hp).
  cbn [bind]. rewrite !inherited_has_no by reflexivity.
  cbn [bind]. unfold js_le, ToNumber, ToPrimitive. cbn [bind].
  rewrite nle_NaN_r. reflexivity.
Qed.

(** ** The health route *)

(** C8. [GET /api/health?aqi=250] answers with the one-string list that
    [generateHealthRecommendations] gives every index above 200, and the
    request without [aqi] answers exactly as [aqi=50] does. *)
Theorem api_health_band_and_default :
  api_health (Some "250") =
    {| recommendations := ["Health warnings — avoid outdoor activities"] |} /\
  (forall i : Q,
      200 < i ->
      generateHealthRecommendations (Fin i) =
        recommendations (api_health (Some "250"))) /\
  List.length (recommendations (api_health (Some "250"))) = 1%nat /\
  api_health None = api_health (Some "50").
Proof.
  split; [reflexivity |]. split; [| split; reflexivity].
  intros i Hi. unfold generateHealthRecommendations; simpl.
  destruct (Qle_bool i 50) eqn:?; [order_facts; exfalso; lra |].
  destruct (Qle_bool i 100) eqn:?; [order_facts; exfalso; lra |].
  destruct (Qle_bool i 150) eqn:?; [order_facts; exfalso; lra |].
  destruct (Qle_bool i 200) eqn:?; [order_facts; exfalso; lra |].
  reflexivity.
Qed.

(** ** The forecast generator *)

Lemma forecast_step_same_draws (ls : list string) :
  forall (cur : number) (acc : list ForecastDay.t) (w1 w2 : world),
    same_draws w1 w2 ->
    let '(c1, f1, w1') := fold_left forecast_step ls (cur, acc, w1) in
    let '(c2, f2, w2') := fold_left forecast_step ls (cur, acc, w2) in
    c1 = c2 /\ f1 = f2 /\ same_draws w1' w2'.
Proof.
  induction ls as [| d ls IH]; intros cur acc w1 w2 [Hn Hr]; simpl.
  - repeat split; assumption.
  - rewrite Hn, Hr. apply IH. split; simpl; [reflexivity | assumption].
Qed.

(** C9. The forecast does not depend on the location: with the same seed
    and the same results of [Math.random], two calls with any two locations
    (and any clock and network) return the same entries. *)
Theorem generateForecast_ignores_location
  (baseAqi : number) (location1 location2 : string) (w1 w2 : world) :
  drawn w1 = drawn w2 ->
  (forall n : nat, random w1 n = random w2 n) ->
  fst (generateForecast baseAqi location1 w1) =
  fst (generateForecast baseAqi location2 w2).
Proof.
  intros Hn Hr. unfold generateForecast.
  pose proof (forecast_step_same_draws days baseAqi [] w1 w2 (conj Hn Hr)) as H.
  destruct (fold_left forecast_step days (baseAqi, [], w1)) as [[c1 f1] w1'].
  destruct (fold_left forecast_step days (baseAqi, [], w2)) as [[c2 f2] w2'].
  simpl. apply H.
Qed.

Lemma clamp_bounds (x : number) (lo hi : Q) :
  lo <= hi -> is_NaN x = false ->
  exists c : Q, clamp x (Fin lo) (Fin hi) = Fin c /\ lo <= c <= hi.
Proof.
  intros Hlh Hx. unfold clamp, Math_min, Math_max.
  destruct x as [| | | x]; try discriminate; simpl;
    repeat match goal with
      | |- context [Qle_bool ?a ?b] => destruct (Qle_bool a b) eqn:?; simpl
      end;
    order_facts; eexists; (split; [reflexivity | lra]).
Qed.

Lemma noise_range (r : Q) :
  0 <= r < 1 -> exists v : Q, noise r = Fin v /\ -10 <= v <= 10.
Proof.
  intros Hr. exists ((r + - 0.5) * 20). split; [reflexivity | lra].
Qed.

Lemma trend_keeps_number (cur : number) (v : Q) :
  is_NaN cur = false -> is_NaN (cur * Fin 1.05 + Fin v)%num = false.
Proof. destruct cur; try discriminate; reflexivity. Qed.

Lemma running_bounds (seed : number) (draw : nat -> Q) (k : nat) :
  is_NaN seed = false ->
  exists c : Q, running seed draw (S k) = Fin c /\ 10 <= c <= 400.
Proof.
  intros Hseed. induction k as [| k [c [Hc Hb]]].
  - simpl. apply clamp_bounds; [lra |]. apply trend_keeps_number, Hseed.
  - change (running seed draw (S (S k)))
      with (clamp (running seed draw (S k) * Fin 1.05 + noise (draw (S k)))%num
              (Fin 10) (Fin 400)).
    rewrite Hc. apply clamp_bounds; [lra | reflexivity].
Qed.

Lemma Math_round_nearest (x : Q) :
  exists z : Z,
    Math_round (Fin x) = Fin (inject_Z z) /\
    inject_Z z - 0.5 <= x /\ x < inject_Z z + 0.5.
Proof.
  exists (Qfloor (x + 0.5)). split; [reflexivity |].
  pose proof (Qfloor_le (x + 0.5)) as Hlo.
  pose proof (Qlt_floor (x + 0.5)) as Hhi.
  rewrite inject_Z_plus in Hhi. change (inject_Z 1) with 1 in Hhi.
  split; lra.
Qed.

(** C4. Whatever the seed (a number, not [NaN]) and whatever [Math.random]
    returns in [0, 1), the forecast has exactly six entries labelled Today,
    Tomorrow, Wed, Thu, Fri, Sat in that order; entry [k] reports the
    nearest integer to the running value after [k + 1] updates
    [next = clamp(current * 1.05 + noise, 10, 400)], every running value lies
    in [10, 400] and every noise in [-10, 10]; six random results are
    consumed. *)
Theorem generateForecast_six_days
  (seed : number) (location : string) (w : world) :
  is_NaN seed = false ->
  (forall n : nat, 0 <= random w n < 1) ->
  let forecast := fst (generateForecast seed location w) in
  let current := running seed (fun k => random w (k + drawn w)%nat) in
  List.length forecast = 6%nat /\
  map ForecastDay.day forecast =
    ["Today"; "Tomorrow"; "Wed"; "Thu"; "Fri"; "Sat"] /\
  map ForecastDay.aqi forecast =
    map (fun k => Math_round (current (S k))) (seq 0 6) /\
  (forall k : nat,
      exists (c : Q) (z : Z),
        current (S k) = Fin c /\ 10 <= c <= 400 /\
        Math_round (current (S k)) = Fin (inject_Z z) /\
        inject_Z z - 0.5 <= c /\ c < inject_Z z + 0.5) /\
  (forall k : nat,
      exists v : Q, noise (random w (k + drawn w)%nat) = Fin v /\
                    -10 <= v <= 10) /\
  drawn (snd (generateForecast seed location w)) = (6 + drawn w)%nat.
Proof.
  intros Hseed Hdraws forecast current.
  split; [reflexivity |]. split; [reflexivity |]. split; [reflexivity |].
  split; [| split; [| reflexivity]].
  - intros k.
    destruct (running_bounds seed (fun k => random w (k + drawn w)%nat) k Hseed)
      as [c [Hc Hb]].
    destruct (Math_round_nearest c) as [z [Hz Hn]].
    exists c, z. subst current. cbv beta. rewrite Hc.
    repeat split; solve [reflexivity | apply Hb | apply Hz | apply Hn].
  - intros k. apply noise_range, Hdraws.
Qed.

(** ** The adapter *)

Lemma getOpenAQData_total (location : string) (w : world) :
  exists r : option Snapshot.t, getOpenAQData location w = Normal r.
Proof.
  unfold getOpenAQData, try_catch.
  destruct (getOpenAQData_try _ _) as [r | e]; eauto.
Qed.

(** Splits on the outcome of the first computation of a sequence in the
    goal and drops the case where it throws. *)
Ltac step_bind :=
  match goal with
  | |- bind ?c _ = Normal _ -> _ =>
      let E := fresh "E" in
      destruct c eqn:E; cbn [bind]; [| discriminate]
  end.





(** *** Well-formed measurements *)

Lemma own_put (props : list (string * value)) (k k' : string) (e : value) :
  own (put props k e) k' = if String.eqb k k' then Some e else own props k'.
Proof.
  induction props as [| [k0 x] rest IH]; cbn [put own].
  - reflexivity.
  - destruct (String.eqb_spec k0 k) as [-> | Hk0]; cbn [own].
    + destruct (String.eqb k k'); reflexivity.
    + rewrite IH.
      destruct (String.eqb_spec k0 k') as [-> | Hk0'];
        destruct (String.eqb_spec k k') as [-> | Hk']; congruence.
Qed.

Lemma pm25_reading_Set (props : list (string * value)) (k : string)
  (v u s : value) :
  pm25_reading (Set_ props k (Obj [("value", v); ("unit", u); ("status", s)]))
  = if String.eqb k "pm25" then Normal v else pm25_reading props.
Proof.
  unfold pm25_reading, Set_. cbn [Get bind].
  destruct (String.eqb_spec k "__proto__") as [-> | Hproto];
    [reflexivity |].
  rewrite own_put. destruct (String.eqb k "pm25"); reflexivity.
Qed.

Lemma getStatusFromValue_number (p : string) (v : number) :
  exists s : string, getStatusFromValue (Str p) (Num v) = Normal s.
Proof.
  unfold getStatusFromValue, ToPropertyKey. cbn [ToString bind].
  assert (Hrow : exists row : value,
             Get thresholds p = Normal row /\
             ((exists g m : Q, row = Obj [("good", Num (Fin g));
                                          ("moderate", Num (Fin m))]) \/
              row = inherited p)).
  { unfold thresholds. cbn [Get own].
    repeat match goal with
      | |- context [String.eqb ?k p] =>
          destruct (String.eqb k p);
          [ eexists; split; [reflexivity | left; do 2 eexists; reflexivity] | ]
      end.
    eexists; split; [reflexivity | right; reflexivity]. }
  destruct Hrow as (row & -> & [(g & m & ->) | ->]); cbn [bind].
  - cbn [optional_Get Get own String.eqb Ascii.eqb Bool.eqb bind js_le
         ToPrimitive ToNumber].
    destruct (nle v (Fin g)); [eauto |].
    destruct (nle v (Fin m)); eauto.
  - rewrite !inherited_has_no by reflexivity. cbn [bind].
    unfold js_le, ToNumber, ToPrimitive. cbn [bind].
    rewrite nle_NaN_r. eauto.
Qed.

Lemma measurement_entry_wellformed (m : Measurement.t) :
  exists s : string,
    measurement_entry (measurement_value m)
    = Normal (Measurement.parameter m,
              Obj [ ("value", Num (Measurement.value m));
                    ("unit", Str (Measurement.unit m));
                    ("status", Str s) ]).
Proof.
  destruct (getStatusFromValue_number (Measurement.parameter m)
              (Measurement.value m)) as [s Hs].
  exists s. unfold measurement_entry, measurement_value, ToPropertyKey.
  cbn [Get own String.eqb Ascii.eqb Bool.eqb bind ToString].
  rewrite Hs. reflexivity.
Qed.

Lemma store_measurements_wellformed (ms : list Measurement.t) :
  forall acc : list (string * value),
    exists pollutants : list (string * value),
      store_measurements (map measurement_value ms) acc = Normal pollutants /\
      pm25_reading pollutants =
        match last_pm25 ms with
        | Some v => Normal (Num v)
        | None => pm25_reading acc
        end.
Proof.
  induction ms as [| m rest IH]; intros acc; cbn [map store_measurements].
  - exists acc. split; reflexivity.
  - destruct (measurement_entry_wellformed m) as [s ->]. cbn [bind fst snd].
    destruct (IH (Set_ acc (Measurement.parameter m)
                    (Obj [ ("value", Num (Measurement.value m));
                           ("unit", Str (Measurement.unit m));
                           ("status", Str s) ])))
      as (pollutants & Hstore & Hread).
    exists pollutants. split; [assumption |].
    rewrite Hread, pm25_reading_Set. cbn [last_pm25].
    destruct (last_pm25 rest); [reflexivity |].
    destruct (String.eqb (Measurement.parameter m) "pm25"); reflexivity.
Qed.

Lemma length_positive (n : nat) : nlt (Fin 0) (of_nat (S n)) = true.
Proof.
  unfold of_nat. cbn [nlt]. apply negb_true_iff, not_true_is_false.
  intros H. apply Qle_bool_iff in H.
  assert (0 < inject_Z (Z.of_nat (S n))).
  { rewrite <- (Zlt_Qlt 0). lia. }
  lra.
Qed.

(** The adapter nests [Math.min(500, Math.max(0, x))]; it is the same clamp. *)
Lemma Math_min_max_clamp (x : number) :
  Math_min (Fin 500) (Math_max (Fin 0) x) = clamp x (Fin 0) (Fin 500).
Proof.
  unfold clamp, Math_min, Math_max.
  destruct x as [| | | q]; try reflexivity.
  cbn [is_NaN orb nle].
  destruct (Qle_bool 0 q) eqn:E0; destruct (Qle_bool 500 q) eqn:E500;
    cbn [is_NaN orb nle]; rewrite ?E0, ?E500; try reflexivity;
    order_facts; exfalso; lra.
Qed.

(** The index the adapter derives from well-formed measurements: the value
    of the last pm25 measurement, or 15 when there is none or when that value
    is falsy (0 or [NaN]), times 5 and clamped to [0, 500]; the reported
    index is its rounding. *)
Theorem getOpenAQData_index (location : string) (w : world) (data : value)
  (m : Measurement.t) (ms : list Measurement.t) :
  axios_get w (trim (split_comma_first location)) = Resolved data ->
  Get data "results" = Normal (Arr (map measurement_value (m :: ms))) ->
  let pm25 :=
    match last_pm25 (m :: ms) with
    | Some v => if number_truthy v then v else Fin 15
    | None => Fin 15
    end in
  let calculatedAqi := clamp (pm25 * Fin 5)%num (Fin 0) (Fin 500) in
  exists d : Snapshot.t,
    getOpenAQData location w = Normal (Some d) /\
    Snapshot.aqi d = Math_round calculatedAqi /\
    Snapshot.category d = getAQICategory calculatedAqi /\
    Snapshot.location d = trim (split_comma_first location) /\
    Snapshot.lastUpdated d = Str (Measurement.datetime m).
Proof.
  intros Hnet Hres pm25 calculatedAqi.
  destruct (store_measurements_wellformed (m :: ms) [])
    as (pollutants & Hstore & Hread).
  unfold getOpenAQData. rewrite Hnet. unfold getOpenAQData_try.
  rewrite Hres. cbn [bind truthy map Get String.eqb Ascii.eqb Bool.eqb].
  unfold js_gt. cbn [ToPrimitive bind]. unfold ToNumber.
  cbn [ToPrimitive bind List.length].
  rewrite length_positive.
  cbn [bind try_catch array_index nth forEach_measurement].
  change (measurement_value m :: map measurement_value ms)
    with (map measurement_value (m :: ms)).
  rewrite Hstore. cbn [bind].
  unfold pm25_reading in Hread. cbn [bind Get] in Hread.
  cbn [bind Get]. rewrite Hread. subst calculatedAqi pm25.
  rewrite <- Math_min_max_clamp.
  unfold js_mul, ToNumber, measurement_value.
  destruct (last_pm25 (m :: ms)) as [v |].
  - unfold or_else. cbn [bind truthy].
    destruct (number_truthy v);
      cbn [ToPrimitive bind Get own String.eqb Ascii.eqb Bool.eqb try_catch];
      eexists; (split; [reflexivity |]); repeat split.
  - cbn [own]. change (inherited "pm25") with Undefined.
    unfold or_else.
    cbn [optional_Get bind truthy ToPrimitive Get own String.eqb Ascii.eqb
         Bool.eqb try_catch];
      eexists; (split; [reflexivity |]); repeat split.
Qed.

(** C3, at the input where the code departs from it. A pm25 reading of 0 is
    present, [clamp(0 * 5, 0, 500)] is 0, and the adapter reports 75: the
    reading is falsy, so [|| 15] replaces it by the surrogate. *)
Theorem getOpenAQData_zero_pm25 (w : world) :
  getOpenAQData "Delhi, India" (answering zero_pm25 w) =
    Normal (Some {| Snapshot.aqi := Fin 75;
                    Snapshot.category := "moderate";
                    Snapshot.location := "Delhi";
                    Snapshot.pollutants :=
                      Obj [ ("pm25", Obj [ ("value", Num (Fin 0));
                                           ("unit", Str "µg/m³");
                                           ("status", Str "Good") ]) ];
                    Snapshot.lastUpdated := Str "2025-10-04T12:00:00Z" |}) /\
  clamp (Fin 0 * Fin 5)%num (Fin 0) (Fin 500) = Fin 0 /\
  getAQICategory (Fin 0) = "good".
Proof.
  split; [| split]; vm_compute; reflexivity.
Qed.

(** ** The resolver *)

Lemma generateForecast_labels (seed : number) (location : string) (w : world) :
  map ForecastDay.day (fst (generateForecast seed location w)) = days /\
  drawn (snd (generateForecast seed location w)) = (6 + drawn w)%nat /\
  now (snd (generateForecast seed location w)) = now w.
Proof. repeat split. Qed.


(** What the lookup [cityData[location] || cityData['New York, NY']] finds:
    the entry of a key of the store, the inherited member for a name that
    [Object.prototype] defines, and the New York entry for any other name. *)
Lemma fallback_entry_cases (location : string) :
  exists fallback : value,
    fallback_entry location = Normal fallback /\
    ((In location store_keys /\ Get cityData location = Normal fallback) \/
     (~ In location store_keys /\
      existsb (String.eqb location) Object_prototype = true /\
      fallback = Builtin location) \/
     (~ In location store_keys /\
      existsb (String.eqb location) Object_prototype = false /\
      Get cityData "New York, NY" = Normal fallback)).
Proof.
  unfold fallback_entry, cityData, store_keys. cbn [Get own bind].
  destruct (String.eqb_spec "New York, NY" location) as [<- | N1].
  { eexists. split; [reflexivity |]. left. split; [simpl; tauto | reflexivity]. }
  destruct (String.eqb_spec "Delhi, India" location) as [<- | N2].
  { eexists. split; [reflexivity |]. left. split; [simpl; tauto | reflexivity]. }
  destruct (String.eqb_spec "London, UK" location) as [<- | N3].
  { eexists. split; [reflexivity |]. left. split; [simpl; tauto | reflexivity]. }
  assert (Hout : ~ In location ["New York, NY"; "Delhi, India"; "London, UK"]).
  { simpl. intros [H | [H | [H | []]]]; congruence. }
  unfold inherited.
  destruct (existsb (String.eqb location) Object_prototype) eqn:Einh.
  - eexists. split; [reflexivity |]. right; left. auto.
  - eexists. split; [reflexivity |]. right; right. auto.
Qed.

Lemma fallback_fields (location : string) (fallback : value) :
  fallback_entry location = Normal fallback ->
  exists base pollutants : value,
    Get fallback "aqi" = Normal base /\
    Get fallback "pollutants" = Normal pollutants /\
    (base = Undefined \/ exists q : Q, base = Num (Fin q)).
Proof.
  intros Hentry.
  destruct (fallback_entry_cases location) as (f & Hf & Hcases).
  rewrite Hentry in Hf. injection Hf as <-.
  destruct Hcases as [[Hin Hget] | [(_ & _ & ->) | (_ & _ & Hget)]].
  - simpl in Hin.
    destruct Hin as [<- | [<- | [<- | []]]]; injection Hget as <-;
      (eexists; eexists; split; [reflexivity | split; [reflexivity |]];
       right; eexists; reflexivity).
  - eexists; eexists. split; [reflexivity | split; [reflexivity |]]. now left.
  - injection Hget as <-.
    eexists; eexists; split; [reflexivity | split; [reflexivity |]].
    right; eexists; reflexivity.
Qed.

(** The fallback path always returns, and this is the reading it builds. *)
Lemma fallback_reading_returns (location : string) (w : world) :
  exists (fallback base pollutants : value),
    fallback_entry location = Normal fallback /\
    Get fallback "aqi" = Normal base /\
    Get fallback "pollutants" = Normal pollutants /\
    let currentAqi :=
      Math_max (Fin 0)
        (base_number base + (Fin (random w (drawn w)) - Fin 0.5) * Fin 10)%num in
    let after := generateForecast currentAqi location (snd (Math_random w)) in
    fallback_reading location w =
      Normal ({| Reading.aqi := Math_round currentAqi;
                 Reading.category := getAQICategory currentAqi;
                 Reading.location := location;
                 Reading.pollutants := pollutants;
                 Reading.forecast := fst after;
                 Reading.healthRecommendations :=
                   generateHealthRecommendations currentAqi;
                 Reading.lastUpdated := Str (now w) |}, snd after).
Proof.
  destruct (fallback_entry_cases location) as (fallback & Hentry & _).
  destruct (fallback_fields location fallback Hentry)
    as (base & pollutants & Hbase & Hpoll & Hshape).
  exists fallback, base, pollutants.
  repeat (split; [assumption |]).
  intros currentAqi after. unfold fallback_reading.
  rewrite Hentry. cbn [bind]. unfold Math_random at 1.
  rewrite Hbase. cbn [bind].
  assert (Hsum : forall v : number,
             bind (js_add base (Num v)) ToNumber
             = Normal (base_number base + v)%num).
  { intros v. destruct Hshape as [-> | [q ->]]; reflexivity. }
  specialize (Hsum ((Fin (random w (drawn w)) - Fin 0.5) * Fin 10)%num).
  destruct (js_add base _) as [sum | e] eqn:Esum; cbn [bind] in Hsum |- *;
    [| discriminate].
  rewrite Hsum. cbn [bind]. rewrite Hpoll. cbn [bind].
  reflexivity.
Qed.

(** What the adapter computes when it returns data: the pollutant map of
    the loop, the pm25 reading taken from it, the product with 5, and the
    clamped index [calculatedAqi] from which both the reported index and the
    category are made. *)
Lemma getOpenAQData_try_calculated (cityName : string) (response : reply)
  (d : Snapshot.t) :
  getOpenAQData_try cityName response = Normal (Some d) ->
  exists (data m : value) (ms : list value) (pollutants : list (string * value))
         (pm25 : value) (scaled : number) (lastUpdated : value),
    response = Resolved data /\
    Get data "results" = Normal (Arr (m :: ms)) /\
    store_measurements (m :: ms) [] = Normal pollutants /\
    pm25_reading pollutants = Normal pm25 /\
    js_mul (or_else pm25 (Num (Fin 15))) (Num (Fin 5)) = Normal scaled /\
    Get m "datetime" = Normal lastUpdated /\
    d = {| Snapshot.aqi :=
             Math_round (Math_min (Fin 500) (Math_max (Fin 0) scaled));
           Snapshot.category :=
             getAQICategory (Math_min (Fin 500) (Math_max (Fin 0) scaled));
           Snapshot.location := cityName;
           Snapshot.pollutants := Obj pollutants;
           Snapshot.lastUpdated := lastUpdated |}.
Proof.
  unfold getOpenAQData_try. destruct response as [message | data];
    [discriminate |].
  step_bind. rename a into results.
  destruct (truthy results) eqn:Etruthy; cbn [bind].
  2: discriminate.
  destruct (Get results "length") as [len | e] eqn:Elen; cbn [bind];
    [| discriminate].
  destruct (js_gt len (Num (Fin 0))) as [[|] | e] eqn:Egt; cbn [bind];
    try discriminate.
  step_bind. rename a into latestData. rename E0 into Elatest.
  step_bind. rename a into pollutants. rename E0 into Estore.
  cbn [Get bind].
  step_bind. rename a into pm25. rename E0 into Epm25.
  step_bind. rename a into scaled. rename E0 into Escaled.
  step_bind. rename a into lastUpdated. rename E0 into Eupdated.
  intros H. injection H as <-.
  destruct results as [| | b | n | s | ms | props | name];
    try discriminate.
  destruct ms as [| m ms].
  - exfalso. injection Elen as <-. vm_compute in Egt. discriminate.
  - injection Elatest as <-.
    exists data, m, ms, pollutants, pm25, scaled, lastUpdated.
    repeat split; assumption.
Qed.


(** Two normal completions with equal pairs have equal components. *)
Lemma Normal_pair_inv {A B : Type} (a a' : A) (b b' : B) :
  Normal (a, b) = Normal (a', b') -> a = a' /\ b = b'.
Proof. intros H. injection H as -> ->. split; reflexivity. Qed.


(** C2, as amended. The category is the band of the value before rounding,
    and the reported index is the nearest integer to that value. In every
    forecast entry the value is the running value of the recurrence. In a
    reading made from provider data it is [calculatedAqi], the clamp of five
    times the pm25 reading of the pollutant map (15 when that is falsy); in
    a reading of the fallback path it is [currentAqi], the entry's index
    plus the variation, not below 0. Every reading is one or the other. *)
Theorem category_from_unrounded_index :
  (forall (seed : number) (location : string) (w : world),
      let current := running seed (fun k => random w (k + drawn w)%nat) in
      fst (generateForecast seed location w) =
        map (fun k =>
               {| ForecastDay.day := nth k days "";
                  ForecastDay.aqi := Math_round (current (S k));
                  ForecastDay.category := getAQICategory (current (S k)) |})
            (seq 0 6)) /\
  (forall (location : string) (w : world),
      (exists d : Snapshot.t, getOpenAQData location w = Normal (Some d)) \/
      getOpenAQData location w = Normal None) /\
  (forall (location : string) (w : world) (d : Snapshot.t),
      getOpenAQData location w = Normal (Some d) ->
      exists (data m : value) (ms : list value)
             (pollutants : list (string * value)) (pm25 : value)
             (scaled : number) (lastUpdated : value),
        axios_get w (trim (split_comma_first location)) = Resolved data /\
        Get data "results" = Normal (Arr (m :: ms)) /\
        store_measurements (m :: ms) [] = Normal pollutants /\
        pm25_reading pollutants = Normal pm25 /\
        js_mul (or_else pm25 (Num (Fin 15))) (Num (Fin 5)) = Normal scaled /\
        Get m "datetime" = Normal lastUpdated /\
        let calculatedAqi := Math_min (Fin 500) (Math_max (Fin 0) scaled) in
        let after :=
          generateForecast (Math_round calculatedAqi) location w in
        getAirQualityData location w =
          Normal ({| Reading.aqi := Math_round calculatedAqi;
                     Reading.category := getAQICategory calculatedAqi;
                     Reading.location := trim (split_comma_first location);
                     Reading.pollutants := Obj pollutants;
                     Reading.forecast := fst after;
                     Reading.healthRecommendations :=
                       generateHealthRecommendations
                         (Math_round calculatedAqi);
                     Reading.lastUpdated := lastUpdated |}, snd after)) /\
  (forall (location : string) (w : world),
      getOpenAQData location w = Normal None ->
      exists fallback base pollutants : value,
        fallback_entry location = Normal fallback /\
        Get fallback "aqi" = Normal base /\
        Get fallback "pollutants" = Normal pollutants /\
        let currentAqi :=
          Math_max (Fin 0)
            (base_number base
             + (Fin (random w (drawn w)) - Fin 0.5) * Fin 10)%num in
        let after :=
          generateForecast currentAqi location (snd (Math_random w)) in
        getAirQualityData location w =
          Normal ({| Reading.aqi := Math_round currentAqi;
                     Reading.category := getAQICategory currentAqi;
                     Reading.location := location;
                     Reading.pollutants := pollutants;
                     Reading.forecast := fst after;
                     Reading.healthRecommendations :=
                       generateHealthRecommendations currentAqi;
                     Reading.lastUpdated := Str (now w) |}, snd after)).
Proof.
  split; [reflexivity |]. split.
  { intros location w.
    destruct (getOpenAQData_total location w) as [[d |] H];
      [left; exists d; exact H | right; exact H]. }
  split.
  - intros location w d Hd.
    assert (Htry : getOpenAQData_try (trim (split_comma_first location))
                     (axios_get w (trim (split_comma_first location)))
                   = Normal (Some d)).
    { revert Hd. unfold getOpenAQData, try_catch.
      destruct (getOpenAQData_try _ _) as [r | e]; [trivial | discriminate]. }
    apply getOpenAQData_try_calculated in Htry.
    destruct Htry as (data & m & ms & pollutants & pm25 & scaled & lastUpdated
                      & Hnet & Hres & Hstore & Hpm25 & Hscaled & Hupdated
                      & Hrecord).
    exists data, m, ms, pollutants, pm25, scaled, lastUpdated.
    repeat (split; [assumption |]).
    intros calculatedAqi after.
    unfold getAirQualityData. rewrite Hd. cbn [bind]. rewrite Hrecord.
    cbn [Snapshot.aqi Snapshot.category Snapshot.location Snapshot.pollutants
         Snapshot.lastUpdated].
    fold calculatedAqi. fold after.
    destruct after as [forecast w1]. reflexivity.
  - intros location w Hnull.
    destruct (fallback_reading_returns location w)
      as (fallback & base & pollutants & Hentry & Hbase & Hpoll & Hreading).
    exists fallback, base, pollutants.
    repeat (split; [assumption |]).
    intros currentAqi after.
    unfold getAirQualityData. rewrite Hnull. cbn [bind]. exact Hreading.
Qed.

(** C7, at the input where the code departs from it. ["constructor"] is no
    key of the store, yet the lookup finds the member every object inherits
    and [||] keeps it: the baseline is not the New York entry, the index is
    [NaN], the category [hazardous] and the pollutants [undefined]. *)
Theorem getAirQualityData_inherited_name (w : world) :
  ~ In "constructor" store_keys /\
  fallback_entry "constructor" = Normal (Builtin "constructor") /\
  fallback_entry "Unknown City, ZZ" = Get cityData "New York, NY" /\
  exists (reading : Reading.t) (w' : world),
    getAirQualityData "constructor" (offline w) = Normal (reading, w') /\
    Reading.aqi reading = NaN /\
    Reading.category reading = "hazardous" /\
    Reading.pollutants reading = Undefined /\
    map ForecastDay.aqi (Reading.forecast reading) = [NaN; NaN; NaN; NaN; NaN; NaN].
Proof.
  split.
  { simpl. intros [H | [H | [H | []]]]; discriminate. }
  split; [reflexivity |]. split; [reflexivity |].
  do 2 eexists. split; [vm_compute; reflexivity |].
  repeat split.
Qed.

(** For a location that is neither a key of the store nor a name that
    [Object.prototype] defines, the fallback path uses the New York entry:
    its pollutants, and its index 78 moved by a perturbation in [-5, 5),
    which stays in the [moderate] band. *)
Theorem fallback_unknown_location (location : string) (w : world) :
  ~ In location store_keys ->
  existsb (String.eqb location) Object_prototype = false ->
  0 <= random w (drawn w) < 1 ->
  getOpenAQData location w = Normal None ->
  fallback_entry location = fallback_entry "New York, NY" /\
  exists (reading : Reading.t) (w' : world) (v : Q),
    getAirQualityData location w = Normal (reading, w') /\
    -5 <= v < 5 /\
    Reading.aqi reading = Math_round (Fin (78 + v)) /\
    Reading.category reading = "moderate" /\
    Reading.pollutants reading = new_york_pollutants /\
    Reading.location reading = location.
Proof.
  intros Hkey Hinh Hr Hnull.
  destruct (fallback_entry_cases location)
    as (fallback & Hentry & [[Hin _] | [(_ & Hinh' & _) | (_ & _ & Hget)]]);
    [contradiction | congruence |].
  injection Hget as <-.
  split; [rewrite Hentry; reflexivity |].
  destruct (fallback_reading_returns location w)
    as (fallback & base & pollutants & Hentry' & Hbase & Hpoll & Hreading).
  rewrite Hentry in Hentry'. injection Hentry' as <-.
  injection Hbase as <-. injection Hpoll as <-.
  cbv zeta in Hreading.
  unfold getAirQualityData. rewrite Hnull. cbn [bind]. rewrite Hreading.
  set (r := random w (drawn w)) in *.
  pose (v := (r + - 0.5) * 10).
  assert (Hmax : Math_max (Fin 0)
                   (base_number (Num (Fin 78)) + (Fin r - Fin 0.5) * Fin 10)%num
                 = Fin (78 + v)).
  { change (base_number (Num (Fin 78)) + (Fin r - Fin 0.5) * Fin 10)%num
      with (Fin (78 + v)).
    unfold Math_max. cbn [is_NaN orb nle].
    replace (Qle_bool 0 (78 + v)) with true; [reflexivity |].
    symmetry. apply Qle_bool_iff. subst v. lra. }
  rewrite Hmax.
  do 2 eexists. exists v.
  split; [reflexivity |]. split; [subst v; lra |].
  cbn [Reading.aqi Reading.category Reading.pollutants Reading.location].
  split; [reflexivity |]. split; [| split; reflexivity].
  unfold getAQICategory. cbn [nle].
  replace (Qle_bool (78 + v) 50) with false
    by (symmetry; apply not_true_is_false; intros H; order_facts;
        subst v; lra).
  replace (Qle_bool (78 + v) 100) with true
    by (symmetry; apply Qle_bool_iff; subst v; lra).
  reflexivity.
Qed.

(** ** Further properties *)

(** *** Status of a known pollutant *)

Lemma thresholds_row (p : string) (g m : Q) :
  In (p, (g, m)) threshold_rows ->
  Get thresholds p =
    Normal (Obj [("good", Num (Fin g)); ("moderate", Num (Fin m))]) /\ g <= m.
Proof.
  unfold threshold_rows. simpl.
  intros [H | [H | [H | [H | [H | [H | []]]]]]];
    injection H as <- <- <-; (split; [reflexivity | lra]).
Qed.

Lemma getStatusFromValue_row (p : string) (g m : Q) (v : number) :
  In (p, (g, m)) threshold_rows ->
  getStatusFromValue (Str p) (Num v) =
    Normal (if nle v (Fin g) then "Good"
            else if nle v (Fin m) then "Moderate" else "Unhealthy").
Proof.
  intros Hrow. destruct (thresholds_row p g m Hrow) as [Hget _].
  unfold getStatusFromValue, ToPropertyKey. cbn [ToString bind].
  rewrite Hget.
  cbn [optional_Get Get own String.eqb Ascii.eqb Bool.eqb bind js_le
       ToPrimitive ToNumber].
  destruct (nle v (Fin g)); [reflexivity |].
  destruct (nle v (Fin m)); reflexivity.
Qed.

(** For a pollutant of the table with bounds [good] and [moderate], a value
    up to [good] is ['Good'], a value above it and up to [moderate] is
    ['Moderate'], any value above is ['Unhealthy'], and so is [NaN]. *)
Theorem getStatusFromValue_known (p : string) (g m : Q) :
  In (p, (g, m)) threshold_rows ->
  (forall v : Q,
      v <= g -> getStatusFromValue (Str p) (Num (Fin v)) = Normal "Good") /\
  (forall v : Q,
      g < v <= m ->
      getStatusFromValue (Str p) (Num (Fin v)) = Normal "Moderate") /\
  (forall v : Q,
      m < v -> getStatusFromValue (Str p) (Num (Fin v)) = Normal "Unhealthy") /\
  getStatusFromValue (Str p) (Num NaN) = Normal "Unhealthy" /\
  getStatusFromValue (Str p) (Num NegInf) = Normal "Good" /\
  getStatusFromValue (Str p) (Num PosInf) = Normal "Unhealthy".
Proof.
  intros Hrow. destruct (thresholds_row p g m Hrow) as [_ Hgm].
  repeat split; try (rewrite (getStatusFromValue_row p g m _ Hrow); reflexivity);
    intros v Hv; rewrite (getStatusFromValue_row p g m _ Hrow); cbn [nle];
    destruct (Qle_bool v g) eqn:?; destruct (Qle_bool v m) eqn:?;
    order_facts; try reflexivity; exfalso; lra.
Qed.

(** The status of a known pollutant does not improve when the value grows. *)
Theorem getStatusFromValue_monotone (p : string) (g m v1 v2 : Q) :
  In (p, (g, m)) threshold_rows ->
  v1 <= v2 ->
  exists (s1 s2 : string) (r1 r2 : nat),
    getStatusFromValue (Str p) (Num (Fin v1)) = Normal s1 /\
    getStatusFromValue (Str p) (Num (Fin v2)) = Normal s2 /\
    status_rank s1 = Some r1 /\ status_rank s2 = Some r2 /\ (r1 <= r2)%nat.
Proof.
  intros Hrow Hv. destruct (thresholds_row p g m Hrow) as [_ Hgm].
  rewrite !(getStatusFromValue_row p g m _ Hrow). cbn [nle].
  destruct (Qle_bool v1 g) eqn:?; destruct (Qle_bool v1 m) eqn:?;
    destruct (Qle_bool v2 g) eqn:?; destruct (Qle_bool v2 m) eqn:?;
    order_facts; try (exfalso; lra);
    (do 4 eexists; repeat (split; [reflexivity |]); lia).
Qed.

(** *** Recommendations and categories *)

(** The recommendation is a function of the category: two indices of the
    same band get the same advice. *)
Theorem recommendations_follow_category (a b : number) :
  getAQICategory a = getAQICategory b ->
  generateHealthRecommendations a = generateHealthRecommendations b.
Proof.
  unfold getAQICategory, generateHealthRecommendations.
  destruct (nle a (Fin 50)), (nle a (Fin 100)), (nle a (Fin 150)),
    (nle a (Fin 200)), (nle a (Fin 300)),
    (nle b (Fin 50)), (nle b (Fin 100)), (nle b (Fin 150)),
    (nle b (Fin 200)), (nle b (Fin 300));
    intros H; try reflexivity; discriminate H.
Qed.

(** *** The region of a location *)

Lemma split_comma_first_prefix (s rest : string) :
  split_comma_first (split_comma_first s ++ "," ++ rest) = split_comma_first s.
Proof.
  induction s as [| c s IH]; [reflexivity |].
  cbn [split_comma_first]. destruct (Ascii.eqb c ",") eqn:E.
  - reflexivity.
  - cbn [append split_comma_first]. rewrite E. f_equal. exact IH.
Qed.

(** Only the text before the first comma reaches the provider: with live
    data, two locations that share it get the same reading, whatever follows
    the comma. *)
Theorem getAirQualityData_ignores_region
  (location region : string) (w : world) (d : Snapshot.t) :
  getOpenAQData location w = Normal (Some d) ->
  getOpenAQData (split_comma_first location ++ "," ++ region) w
  = Normal (Some d) /\
  getAirQualityData (split_comma_first location ++ "," ++ region) w
  = getAirQualityData location w.
Proof.
  intros Hd.
  assert (Hsame : getOpenAQData (split_comma_first location ++ "," ++ region) w
                  = getOpenAQData location w).
  { unfold getOpenAQData. rewrite split_comma_first_prefix. reflexivity. }
  split; [now rewrite Hsame |].
  unfold getAirQualityData. rewrite Hsame, Hd. reflexivity.
Qed.

(** *** Listed locations *)

(** The fallback reading built from an entry whose index is at least 5. *)
Lemma fallback_reading_from_entry (location : string) (w : world)
  (entry pollutants : value) (q : Q) :
  fallback_entry location = Normal entry ->
  Get entry "aqi" = Normal (Num (Fin q)) ->
  Get entry "pollutants" = Normal pollutants ->
  5 <= q ->
  0 <= random w (drawn w) < 1 ->
  exists (reading : Reading.t) (w' : world) (v : Q),
    fallback_reading location w = Normal (reading, w') /\
    -5 <= v < 5 /\
    Reading.aqi reading = Math_round (Fin (q + v)) /\
    Reading.category reading = getAQICategory (Fin (q + v)) /\
    Reading.pollutants reading = pollutants /\
    Reading.location reading = location.
Proof.
  intros Hentry Haqi Hpoll Hq Hr.
  destruct (fallback_reading_returns location w)
    as (fallback & base & pollutants' & Hentry' & Hbase & Hpoll' & Hreading).
  rewrite Hentry in Hentry'. injection Hentry' as <-.
  rewrite Haqi in Hbase. injection Hbase as <-.
  rewrite Hpoll in Hpoll'. injection Hpoll' as <-.
  cbv zeta in Hreading. rewrite Hreading.
  set (r := random w (drawn w)) in *.
  pose (v := (r + - 0.5) * 10).
  assert (Hmax : Math_max (Fin 0)
                   (base_number (Num (Fin q)) + (Fin r - Fin 0.5) * Fin 10)%num
                 = Fin (q + v)).
  { change (base_number (Num (Fin q)) + (Fin r - Fin 0.5) * Fin 10)%num
      with (Fin (q + v)).
    unfold Math_max. cbn [is_NaN orb nle].
    replace (Qle_bool 0 (q + v)) with true; [reflexivity |].
    symmetry. apply Qle_bool_iff. subst v. lra. }
  rewrite Hmax. do 2 eexists. exists v.
  split; [reflexivity |]. split; [subst v; lra |].
  repeat split.
Qed.

(** Every location that [/api/locations] lists is a key of the store, and
    when the provider has no data it resolves to its own entry: the entry's
    pollutants, and the entry's index moved by less than 5 and rounded. *)
Theorem listed_location_resolves (location : string) (w : world) :
  In location api_locations ->
  0 <= random w (drawn w) < 1 ->
  getOpenAQData location w = Normal None ->
  exists (entry pollutants : value) (q : Q) (reading : Reading.t)
         (w' : world) (v : Q),
    Get cityData location = Normal entry /\
    Get entry "aqi" = Normal (Num (Fin q)) /\
    Get entry "pollutants" = Normal pollutants /\
    getAirQualityData location w = Normal (reading, w') /\
    -5 <= v < 5 /\
    Reading.aqi reading = Math_round (Fin (q + v)) /\
    Reading.category reading = getAQICategory (Fin (q + v)) /\
    Reading.pollutants reading = pollutants /\
    Reading.location reading = location.
Proof.
  intros Hin Hr Hnull.
  unfold getAirQualityData. rewrite Hnull. cbn [bind].
  change api_locations
    with ["New York, NY"; "Delhi, India"; "London, UK"] in Hin.
  destruct Hin as [<- | [<- | [<- | []]]].
  - destruct (fallback_reading_from_entry "New York, NY" w _ _ 78
                eq_refl eq_refl eq_refl ltac:(lra) Hr)
      as (reading & w' & v & H).
    do 3 eexists. exists reading, w', v.
    split; [reflexivity |]. split; [reflexivity |]. split; [reflexivity |].
    exact H.
  - destruct (fallback_reading_from_entry "Delhi, India" w _ _ 245
                eq_refl eq_refl eq_refl ltac:(lra) Hr)
      as (reading & w' & v & H).
    do 3 eexists. exists reading, w', v.
    split; [reflexivity |]. split; [reflexivity |]. split; [reflexivity |].
    exact H.
  - destruct (fallback_reading_from_entry "London, UK" w _ _ 55
                eq_refl eq_refl eq_refl ltac:(lra) Hr)
      as (reading & w' & v & H).
    do 3 eexists. exists reading, w', v.
    split; [reflexivity |]. split; [reflexivity |]. split; [reflexivity |].
    exact H.
Qed.

(** *** The range of the reported index *)

Lemma getOpenAQData_try_clamped (cityName : string) (response : reply)
  (d : Snapshot.t) :
  getOpenAQData_try cityName response = Normal (Some d) ->
  exists scaled : number,
    Snapshot.aqi d = Math_round (clamp scaled (Fin 0) (Fin 500)).
Proof.
  unfold getOpenAQData_try. destruct response as [message | data];
    [discriminate |].
  step_bind. rename a into results.
  destruct (truthy results); cbn [bind]; [| discriminate].
  destruct (Get results "length") as [len | e]; cbn [bind]; [| discriminate].
  destruct (js_gt len (Num (Fin 0))) as [[|] | e]; cbn [bind];
    try discriminate.
  step_bind. step_bind. cbn [Get bind]. step_bind. step_bind.
  rename a2 into scaled. step_bind.
  intros H. injection H as <-. exists scaled. cbn [Snapshot.aqi].
  rewrite Math_min_max_clamp. reflexivity.
Qed.

Lemma Math_round_range (x : number) (lo hi : Z) :
  (exists c : Q, x = Fin c /\ inject_Z lo <= c <= inject_Z hi) ->
  exists z : Z, Math_round x = Fin (inject_Z z) /\ (lo <= z <= hi)%Z.
Proof.
  intros (c & -> & Hlo & Hhi). exists (Qfloor (c + 0.5)).
  split; [reflexivity |]. split.
  - rewrite <- (Qfloor_Z lo). apply Qfloor_resp_le. lra.
  - assert (H : (Qfloor (c + 0.5) < hi + 1)%Z).
    { rewrite Zlt_Qlt, inject_Z_plus.
      apply Qle_lt_trans with (c + 0.5); [apply Qfloor_le |].
      change (inject_Z 1) with 1. lra. }
    lia.
Qed.

Lemma fallback_base_range (location : string) (fallback base : value) :
  fallback_entry location = Normal fallback ->
  Get fallback "aqi" = Normal base ->
  base = Undefined \/ exists q : Q, base = Num (Fin q) /\ 55 <= q <= 245.
Proof.
  intros Hentry Hbase.
  destruct (fallback_entry_cases location) as (f & Hf & Hcases).
  rewrite Hentry in Hf. injection Hf as <-.
  destruct Hcases as [[Hin Hget] | [(_ & _ & ->) | (_ & _ & Hget)]].
  - simpl in Hin.
    destruct Hin as [<- | [<- | [<- | []]]]; injection Hget as <-;
      injection Hbase as <-; right; eexists; (split; [reflexivity | lra]).
  - injection Hbase as <-. now left.
  - injection Hget as <-. injection Hbase as <-.
    right; eexists; (split; [reflexivity | lra]).
Qed.

(** Whatever the location and the provider's answer, the index of the
    reading is [NaN] or a whole number between 0 and 500. *)
Theorem reading_index_range (location : string) (w : world)
  (reading : Reading.t) (w' : world) :
  0 <= random w (drawn w) < 1 ->
  getAirQualityData location w = Normal (reading, w') ->
  Reading.aqi reading = NaN \/
  exists z : Z, Reading.aqi reading = Fin (inject_Z z) /\ (0 <= z <= 500)%Z.
Proof.
  intros Hr. unfold getAirQualityData, getOpenAQData.
  set (cityName := trim (split_comma_first location)).
  assert (Hfallback :
            fallback_reading location w = Normal (reading, w') ->
            Reading.aqi reading = NaN \/
            exists z : Z,
              Reading.aqi reading = Fin (inject_Z z) /\ (0 <= z <= 500)%Z).
  { destruct (fallback_reading_returns location w)
      as (fallback & base & pollutants & Hentry & Hbase & _ & Hreading).
    cbv zeta in Hreading. rewrite Hreading.
    intros H. apply Normal_pair_inv in H. destruct H as [<- _].
    cbn [Reading.aqi].
    destruct (fallback_base_range location fallback base Hentry Hbase)
      as [-> | (q & -> & Hq)].
    - left. reflexivity.
    - right. apply (Math_round_range _ 0 500).
      set (r := random w (drawn w)) in *.
      exists (q + (r + - 0.5) * 10). split.
      + change (base_number (Num (Fin q)) + (Fin r - Fin 0.5) * Fin 10)%num
          with (Fin (q + (r + - 0.5) * 10)).
        unfold Math_max. cbn [is_NaN orb nle].
        replace (Qle_bool 0 (q + (r + - 0.5) * 10)) with true; [reflexivity |].
        symmetry. apply Qle_bool_iff. lra.
      + change (inject_Z 0) with 0. change (inject_Z 500) with 500. lra. }
  destruct (getOpenAQData_try cityName (axios_get w cityName))
    as [[d |] | e] eqn:E; cbn [try_catch bind]; [| exact Hfallback ..].
  apply getOpenAQData_try_clamped in E. destruct E as [scaled Hd].
  destruct (generateForecast (Snapshot.aqi d) location w) as [f w1].
  intros H. apply Normal_pair_inv in H. destruct H as [<- _].
  cbn [Reading.aqi]. rewrite Hd.
  destruct (is_NaN scaled) eqn:Enan.
  - left. destruct scaled; try discriminate. reflexivity.
  - right. apply (Math_round_range _ 0 500).
    destruct (clamp_bounds scaled 0 500 ltac:(lra) Enan) as (c & Hc & Hb).
    exists c. split; [exact Hc |].
    change (inject_Z 0) with 0. change (inject_Z 500) with 500. exact Hb.
Qed.

(** *** One day of the forecast *)

(** From a running value within [10, 400], one day of the forecast moves it
    by at most 9.5 down and 30 up, keeps it within [10, 400], appends one
    entry for that day and consumes one random result. *)
Theorem forecast_step_bounded (cur : Q) (forecast : list ForecastDay.t)
  (w : world) (day : string) :
  10 <= cur <= 400 ->
  0 <= random w (drawn w) < 1 ->
  exists next : Q,
    forecast_step (Fin cur, forecast, w) day =
      (Fin next,
       (forecast ++ [ {| ForecastDay.day := day;
                         ForecastDay.aqi := Math_round (Fin next);
                         ForecastDay.category := getAQICategory (Fin next) |} ])%list,
       snd (Math_random w)) /\
    10 <= next <= 400 /\
    cur - 9.5 <= next <= cur + 30.
Proof.
  intros Hcur Hr. unfold forecast_step. cbn [Math_random snd].
  set (r := random w (drawn w)) in *.
  change ((Fin cur * factor_trend + (Fin r - Fin 0.5) * factor_variation)%num)
    with (Fin (cur * 1.05 + (r + - 0.5) * 20)).
  set (x := cur * 1.05 + (r + - 0.5) * 20).
  assert (Hx : cur - 9.5 <= x <= cur + 30) by (subst x; lra).
  unfold Math_max, Math_min. cbn [is_NaN orb nle].
  destruct (Qle_bool 400 x) eqn:E400; cbn [is_NaN orb nle].
  - replace (Qle_bool 10 400) with true by reflexivity.
    order_facts. exists 400. split; [reflexivity |]. lra.
  - destruct (Qle_bool 10 x) eqn:E10; order_facts.
    + exists x. split; [reflexivity |]. lra.
    + exists 10. split; [reflexivity |]. lra.
Qed.

(** *** The pollutant map *)

Lemma own_Set (props : list (string * value)) (k p : string) (e : value) :
  p <> "__proto__" ->
  own (Set_ props k e) p = if String.eqb k p then Some e else own props p.
Proof.
  intros Hp. unfold Set_.
  destruct (String.eqb_spec k "__proto__") as [-> | Hk].
  - destruct (String.eqb_spec "__proto__" p) as [<- | _];
      [contradiction | reflexivity].
  - apply own_put.
Qed.

Lemma own_Set_proto (props : list (string * value)) (k : string) (e : value) :
  own (Set_ props k e) "__proto__" = own props "__proto__".
Proof.
  unfold Set_. destruct (String.eqb_spec k "__proto__") as [-> | Hk];
    [reflexivity |].
  rewrite own_put. destruct (String.eqb_spec k "__proto__"); congruence.
Qed.

Lemma measurement_entry_status (m : Measurement.t) :
  exists s : string,
    getStatusFromValue (Str (Measurement.parameter m))
      (Num (Measurement.value m)) = Normal s /\
    measurement_entry (measurement_value m)
    = Normal (Measurement.parameter m, pollutant_entry m s).
Proof.
  destruct (getStatusFromValue_number (Measurement.parameter m)
              (Measurement.value m)) as [s Hs].
  exists s. split; [exact Hs |].
  unfold measurement_entry, measurement_value, ToPropertyKey.
  cbn [Get own String.eqb Ascii.eqb Bool.eqb bind ToString].
  rewrite Hs. reflexivity.
Qed.

Lemma store_measurements_content (ms : list Measurement.t) :
  forall acc : list (string * value),
    exists pollutants : list (string * value),
      store_measurements (map measurement_value ms) acc = Normal pollutants /\
      own pollutants "__proto__" = own acc "__proto__" /\
      forall p : string,
        p <> "__proto__" ->
        match last_with p ms with
        | Some m =>
            exists s : string,
              getStatusFromValue (Str p) (Num (Measurement.value m))
              = Normal s /\
              own pollutants p = Some (pollutant_entry m s)
        | None => own pollutants p = own acc p
        end.
Proof.
  induction ms as [| m rest IH]; intros acc; cbn [map store_measurements].
  - exists acc. repeat split.
  - destruct (measurement_entry_status m) as (s & Hs & ->). cbn [bind fst snd].
    destruct (IH (Set_ acc (Measurement.parameter m) (pollutant_entry m s)))
      as (pollutants & Hstore & Hproto & Hown).
    exists pollutants. split; [exact Hstore |].
    split; [rewrite Hproto; apply own_Set_proto |].
    intros p Hp. specialize (Hown p Hp). cbn [last_with].
    destruct (last_with p rest) as [m' |]; [exact Hown |].
    rewrite Hown, own_Set by exact Hp.
    destruct (String.eqb_spec (Measurement.parameter m) p) as [<- | _].
    + exists s. split; [exact Hs | reflexivity].
    + reflexivity.
Qed.

(** For well-formed measurements the loop always completes, and the
    pollutant map holds, under each parameter, the value, unit and status of
    the last measurement of the list with that parameter (the oldest one,
    as the request sorts by descending time) and nothing under a parameter
    that no measurement has; [__proto__] never becomes a key. *)
Theorem store_measurements_last_wins (ms : list Measurement.t) (p : string) :
  p <> "__proto__" ->
  exists pollutants : list (string * value),
    store_measurements (map measurement_value ms) [] = Normal pollutants /\
    own pollutants "__proto__" = None /\
    match last_with p ms with
    | Some m =>
        exists s : string,
          getStatusFromValue (Str p) (Num (Measurement.value m)) = Normal s /\
          own pollutants p = Some (pollutant_entry m s)
    | None => own pollutants p = None
    end.
Proof.
  intros Hp.
  destruct (store_measurements_content ms [])
    as (pollutants & Hstore & Hproto & Hown).
  exists pollutants. split; [exact Hstore |]. split; [exact Hproto |].
  exact (Hown p Hp).
Qed.

(** *** The index of a health request *)

Lemma parse_digits_decimal (d : Decimal.uint) :
  forall acc : nat,
    parse_digits 10 (NilEmpty.string_of_uint d) (Some (Z.of_nat acc))
    = Some (Z.of_nat (Nat.of_uint_acc d acc)).
Proof.
  induction d as [| d IH | d IH | d IH | d IH | d IH | d IH | d IH | d IH
                  | d IH | d IH ]; intros acc;
    [ reflexivity | .. ];
    cbn [NilEmpty.string_of_uint parse_digits];
    match goal with
    | |- context [digit_value 10 ?c] =>
        let v := eval vm_compute in (digit_value 10 c) in
        change (digit_value 10 c) with v
    end;
    cbn [Nat.of_uint_acc]; rewrite <- IH; do 2 f_equal;
    rewrite Nat.tail_mul_spec; lia.
Qed.

Lemma to_little_uint_nonnil (n : nat) :
  forall acc : Decimal.uint,
    acc <> Decimal.Nil -> Nat.to_little_uint n acc <> Decimal.Nil.
Proof.
  induction n as [| n IH]; intros acc Hacc; cbn [Nat.to_little_uint].
  - exact Hacc.
  - apply IH. destruct acc; discriminate.
Qed.

Lemma to_uint_nonnil (n : nat) : Nat.to_uint n <> Decimal.Nil.
Proof.
  unfold Nat.to_uint. intros H. apply DecimalFacts.rev_nil_inv in H.
  revert H. apply to_little_uint_nonnil. discriminate.
Qed.

(** In the model, whose integers are exact, [parseInt] reads a decimal
    numeral back as the number it denotes. *)
Lemma parseInt_decimal (n : nat) : parseInt (decimal n) = of_nat n.
Proof.
  unfold decimal.
  rewrite <- (DecimalNat.Unsigned.of_to n) at 2.
  pose proof (to_uint_nonnil n) as Hnil.
  destruct (Nat.to_uint n) as [| d | d | d | d | d | d | d | d | d | d ];
    [ contradiction | .. ]; clear Hnil;
    unfold parseInt, trimStart; cbn [NilEmpty.string_of_uint];
    cbn [String.length strip_all];
    match goal with
    | |- context [strip_any white_space ?s] =>
        change (strip_any white_space s) with (@None string)
    end;
    cbv iota beta.
  1: destruct d as [| d | d | d | d | d | d | d | d | d | d ];
       cbn [NilEmpty.string_of_uint]; cbv iota beta; [ reflexivity | .. ].
  all: cbn [parse_digits];
    repeat match goal with
      | |- context [digit_value 10 ?c] =>
          let v := eval vm_compute in (digit_value 10 c) in
          change (digit_value 10 c) with v
      end;
    cbv iota beta;
    match goal with
    | |- context [parse_digits 10 _ (Some ?z)] =>
        let k := eval vm_compute in (Z.to_nat z) in
        change (Some z) with (Some (Z.of_nat k))
    end;
    rewrite parse_digits_decimal; reflexivity.
Qed.

(** [GET /api/health?aqi=n], with [n] a decimal numeral, answers with the
    recommendation for the index [n]; and for [n] up to 2^53, where every
    whole number is a binary64 number, [parseInt] reads the numeral back as
    [n]. *)
Theorem api_health_decimal (n : nat) :
  api_health (Some (decimal n)) =
    {| recommendations := generateHealthRecommendations (of_nat n) |} /\
  ((Z.of_nat n <= 2 ^ 53)%Z -> parseInt (decimal n) = of_nat n).
Proof.
  split; [| intros _; apply parseInt_decimal].
  unfold api_health, query_text. rewrite parseInt_decimal.
  destruct n as [| n]; [reflexivity |].
  replace (number_truthy (of_nat (S n))) with true; [reflexivity |].
  unfold of_nat, number_truthy, Qeq_bool. cbn [Qnum Qden inject_Z].
  symmetry. apply negb_true_iff.
  destruct (Z.eqb_spec (Z.of_nat (S n) * 1) (0 * 1)) as [E | E];
    [lia | reflexivity].
Qed.

(** *** The forecast route *)

(** [GET /api/forecast] always answers, whatever the query and the
    provider's answer, with six entries labelled Today, Tomorrow, Wed, Thu,
    Fri, Sat. *)
Theorem api_forecast_six_labels (query : option string) (w : world) :
  exists (forecast : list ForecastDay.t) (w' : world),
    api_forecast query w = Normal (forecast, w') /\
    map ForecastDay.day forecast =
      ["Today"; "Tomorrow"; "Wed"; "Thu"; "Fri"; "Sat"].
Proof.
  unfold api_forecast, getAirQualityData.
  set (location := query_location query).
  destruct (getOpenAQData_total location w) as [[d |] ->]; cbn [bind].
  - pose proof (generateForecast_labels (Snapshot.aqi d) location w)
      as [Hlabels _].
    destruct (generateForecast (Snapshot.aqi d) location w) as [f w1].
    cbn [bind fst snd Reading.forecast]. exists f, w1.
    split; [reflexivity | exact Hlabels].
  - destruct (fallback_reading_returns location w)
      as (fallback & base & pollutants & _ & _ & _ & Hreading).
    cbv zeta in Hreading. rewrite Hreading.
    cbn [bind fst snd Reading.forecast]. do 2 eexists.
    split; [reflexivity | apply generateForecast_labels].
Qed.

End Server.

(** * Instances

    The properties at concrete inputs. None of these inputs reaches a
    conversion between strings and numbers, so the two parameters of the
    runtime are instantiated with constant functions. *)

(** C6 at the indices 40 and 120. *)
Lemma getAQICategory_monotone_witness :
  0 <= 40 /\ 40 <= 120 /\ 120 <= 500 /\
  exists si sj : nat,
    severity (getAQICategory (Fin 40)) = Some si /\
    severity (getAQICategory (Fin 120)) = Some sj /\
    (si <= sj)%nat.
Proof.
  split; [lra |]. split; [lra |]. split; [lra |].
  apply (getAQICategory_monotone 40 120); lra.
Defined.

(** C10 at the pollutant name [radon] and the value 7. *)
Lemma getStatusFromValue_unknown_witness :
  ~ In "radon" known_pollutants /\
  getStatusFromValue (fun _ => "") (fun _ => NaN) (Str "radon") (Num (Fin 7))
  = Normal "Unhealthy".
Proof.
  assert (H : ~ In "radon" known_pollutants).
  { simpl. intros [H | [H | [H | [H | [H | [H | []]]]]]]; discriminate. }
  split; [exact H |].
  exact (getStatusFromValue_unknown (fun _ => "") (fun _ => NaN) "radon" (Fin 7) H).
Defined.

(** C9 at two locations, in two worlds that share the random source and
    differ in the network. *)
Lemma generateForecast_ignores_location_witness :
  drawn (steady 0.3) = drawn (answering zero_pm25 (steady 0.3)) /\
  (forall n : nat,
      random (steady 0.3) n = random (answering zero_pm25 (steady 0.3)) n) /\
  fst (generateForecast (Fin 78) "Delhi, India" (steady 0.3)) =
  fst (generateForecast (Fin 78) "London, UK"
         (answering zero_pm25 (steady 0.3))).
Proof.
  split; [reflexivity |]. split; [reflexivity |].
  apply (generateForecast_ignores_location (Fin 78) "Delhi, India" "London, UK"
           (steady 0.3) (answering zero_pm25 (steady 0.3)));
    reflexivity.
Defined.

(** C4 at the seed 78 with every random result equal to 0.5. *)
Lemma generateForecast_six_days_witness :
  is_NaN (Fin 78) = false /\
  (forall n : nat, 0 <= random (steady 0.5) n < 1) /\
  List.length (fst (generateForecast (Fin 78) "New York, NY" (steady 0.5)))
  = 6%nat.
Proof.
  assert (Hdraws : forall n : nat, 0 <= random (steady 0.5) n < 1).
  { intros n. simpl. lra. }
  split; [reflexivity |]. split; [exact Hdraws |].
  exact (proj1 (generateForecast_six_days (Fin 78) "New York, NY" (steady 0.5)
                  eq_refl Hdraws)).
Defined.


(** C2 as first stated fails. With the seed 40 and the random result 0.915
    the running value of the first day is 50.3: the entry reports 50, whose
    band is [good], with the category [moderate]. In the same way the
    fallback reading for London with the random result 0.02 is built from
    50.2 and reports 50 with [moderate]. *)
Lemma category_differs_from_band_of_reported_index :
  (exists entry : ForecastDay.t,
      In entry (fst (generateForecast (Fin 40) "New York, NY" (steady 0.915))) /\
      ForecastDay.aqi entry = Fin 50 /\
      ForecastDay.category entry = "moderate" /\
      getAQICategory (ForecastDay.aqi entry) = "good") /\
  (forall (NumberToString : number -> string)
          (StringToNumber : string -> number),
      exists (reading : Reading.t) (w' : world),
        getAirQualityData NumberToString StringToNumber "London, UK"
          (steady 0.02) = Normal (reading, w') /\
        Reading.aqi reading = Fin 50 /\
        Reading.category reading = "moderate" /\
        getAQICategory (Reading.aqi reading) = "good").
Proof.
  split.
  - eexists. split; [left; reflexivity |].
    repeat split.
  - intros NumberToString StringToNumber.
    do 2 eexists. split; [vm_compute; reflexivity |].
    repeat split.
Qed.

(** The fallback path at the specification's example of an unknown location. *)
Example resolve_unknown_city :
  fallback_entry "Unknown City, ZZ" = fallback_entry "New York, NY" /\
  exists (reading : Reading.t) (w' : world) (v : Q),
    getAirQualityData (fun _ => "") (fun _ => NaN) "Unknown City, ZZ"
      (steady 0.5) = Normal (reading, w') /\
    -5 <= v < 5 /\
    Reading.aqi reading = Math_round (Fin (78 + v)) /\
    Reading.category reading = "moderate" /\
    Reading.pollutants reading = new_york_pollutants /\
    Reading.location reading = "Unknown City, ZZ".
Proof.
  apply fallback_unknown_location.
  - simpl. intros [H | [H | [H | []]]]; discriminate.
  - reflexivity.
  - simpl. lra.
  - reflexivity.
Defined.

(** [getStatusFromValue_known] at the row of pm25. *)
Lemma getStatusFromValue_known_witness :
  In ("pm25", (12, 35)) threshold_rows /\
  getStatusFromValue (fun _ => "") (fun _ => NaN) (Str "pm25") (Num (Fin 12.3))
  = Normal "Moderate".
Proof.
  assert (H : In ("pm25", (12, 35)) threshold_rows) by (left; reflexivity).
  split; [exact H |].
  apply (proj1 (proj2 (getStatusFromValue_known (fun _ => "") (fun _ => NaN)
                         "pm25" 12 35 H))).
  lra.
Defined.

(** [getStatusFromValue_monotone] at ozone, for the values 50 and 80. *)
Lemma getStatusFromValue_monotone_witness :
  In ("o3", (54, 70)) threshold_rows /\ 50 <= 80 /\
  exists (s1 s2 : string) (r1 r2 : nat),
    getStatusFromValue (fun _ => "") (fun _ => NaN) (Str "o3") (Num (Fin 50))
    = Normal s1 /\
    getStatusFromValue (fun _ => "") (fun _ => NaN) (Str "o3") (Num (Fin 80))
    = Normal s2 /\
    status_rank s1 = Some r1 /\ status_rank s2 = Some r2 /\ (r1 <= r2)%nat.
Proof.
  assert (H : In ("o3", (54, 70)) threshold_rows)
    by (right; right; left; reflexivity).
  assert (Hv : 50 <= 80) by lra.
  split; [exact H |]. split; [exact Hv |].
  exact (getStatusFromValue_monotone (fun _ => "") (fun _ => NaN)
           "o3" 54 70 50 80 H Hv).
Defined.

(** [recommendations_follow_category] at the indices 60 and 90. *)
Lemma recommendations_follow_category_witness :
  getAQICategory (Fin 60) = getAQICategory (Fin 90) /\
  generateHealthRecommendations (Fin 60) = generateHealthRecommendations (Fin 90).
Proof.
  split; [reflexivity |].
  apply (recommendations_follow_category (Fin 60) (Fin 90)). reflexivity.
Defined.

(** [getAirQualityData_ignores_region] for Delhi with live data. *)
Lemma getAirQualityData_ignores_region_witness :
  getOpenAQData (fun _ => "") (fun _ => NaN) "Delhi, India"
    (answering zero_pm25 (steady 0.5)) = Normal (Some zero_pm25_snapshot) /\
  getAirQualityData (fun _ => "") (fun _ => NaN)
    (split_comma_first "Delhi, India" ++ "," ++ " NCT")
    (answering zero_pm25 (steady 0.5))
  = getAirQualityData (fun _ => "") (fun _ => NaN) "Delhi, India"
      (answering zero_pm25 (steady 0.5)).
Proof.
  assert (H : getOpenAQData (fun _ => "") (fun _ => NaN) "Delhi, India"
                (answering zero_pm25 (steady 0.5))
              = Normal (Some zero_pm25_snapshot)) by (vm_compute; reflexivity).
  split; [exact H |].
  exact (proj2 (getAirQualityData_ignores_region (fun _ => "") (fun _ => NaN)
                  "Delhi, India" " NCT" (answering zero_pm25 (steady 0.5))
                  zero_pm25_snapshot H)).
Defined.

(** [getOpenAQData_index] for one pm25 measurement of 10.05 µg/m³. *)
Lemma getOpenAQData_index_witness :
  exists d : Snapshot.t,
    getOpenAQData (fun _ => "") (fun _ => NaN) "Delhi, India"
      (answering
         (Obj [("results", Arr [measurement_value (pm25_measurement 10.05)])])
         (steady 0.5)) = Normal (Some d) /\
    Snapshot.aqi d = Fin 50 /\
    Snapshot.category d = "moderate".
Proof.
  destruct (getOpenAQData_index (fun _ => "") (fun _ => NaN) "Delhi, India"
              (answering
                 (Obj [("results",
                        Arr [measurement_value (pm25_measurement 10.05)])])
                 (steady 0.5))
              (Obj [("results",
                     Arr [measurement_value (pm25_measurement 10.05)])])
              (pm25_measurement 10.05) [] eq_refl eq_refl)
    as (d & Hd & Haqi & Hcat & _).
  exists d. split; [exact Hd |]. split; [exact Haqi | exact Hcat].
Defined.

(** [listed_location_resolves] for London with the random result 0.5. *)
Lemma listed_location_resolves_witness :
  In "London, UK" api_locations /\
  0 <= random (steady 0.5) (drawn (steady 0.5)) < 1 /\
  exists (reading : Reading.t) (w' : world),
    getAirQualityData (fun _ => "") (fun _ => NaN) "London, UK" (steady 0.5)
    = Normal (reading, w') /\
    Reading.pollutants reading =
      Obj [ ("pm25", Obj [ ("value", Num (Fin 11.2)); ("unit", Str "µg/m³");
                           ("status", Str "Good") ]) ].
Proof.
  assert (Hin : In "London, UK" api_locations)
    by (right; right; left; reflexivity).
  assert (Hr : 0 <= random (steady 0.5) (drawn (steady 0.5)) < 1)
    by (simpl; lra).
  split; [exact Hin |]. split; [exact Hr |].
  destruct (listed_location_resolves (fun _ => "") (fun _ => NaN)
              "London, UK" (steady 0.5) Hin Hr eq_refl)
    as (entry & pollutants & q & reading & w' & v & Hentry & _ & Hpoll & Hget
        & _ & _ & _ & Hsame & _).
  exists reading, w'. split; [exact Hget |].
  rewrite Hsame. injection Hentry as <-. injection Hpoll as <-. reflexivity.
Defined.

(** [reading_index_range] for London with the random result 0.5. *)
Lemma reading_index_range_witness :
  0 <= random (steady 0.5) (drawn (steady 0.5)) < 1 /\
  exists (reading : Reading.t) (w' : world),
    getAirQualityData (fun _ => "") (fun _ => NaN) "London, UK" (steady 0.5)
    = Normal (reading, w') /\
    (Reading.aqi reading = NaN \/
     exists z : Z, Reading.aqi reading = Fin (inject_Z z) /\ (0 <= z <= 500)%Z).
Proof.
  assert (Hr : 0 <= random (steady 0.5) (drawn (steady 0.5)) < 1)
    by (simpl; lra).
  split; [exact Hr |].
  destruct (getAirQualityData (fun _ => "") (fun _ => NaN) "London, UK"
              (steady 0.5)) as [[reading w'] | e] eqn:E;
    [| vm_compute in E; discriminate E].
  exists reading, w'. split; [reflexivity |].
  exact (reading_index_range (fun _ => "") (fun _ => NaN) "London, UK"
           (steady 0.5) reading w' Hr E).
Defined.

(** [forecast_step_bounded] from the value 78 with the random result 0.5. *)
Lemma forecast_step_bounded_witness :
  10 <= 78 <= 400 /\
  0 <= random (steady 0.5) (drawn (steady 0.5)) < 1 /\
  exists next : Q,
    fst (fst (forecast_step (Fin 78, [], steady 0.5) "Today")) = Fin next /\
    78 - 9.5 <= next <= 78 + 30.
Proof.
  assert (Hc : 10 <= 78 <= 400) by lra.
  assert (Hr : 0 <= random (steady 0.5) (drawn (steady 0.5)) < 1)
    by (simpl; lra).
  split; [exact Hc |]. split; [exact Hr |].
  destruct (forecast_step_bounded 78 [] (steady 0.5) "Today" Hc Hr)
    as (next & Hstep & _ & Hb).
  exists next. rewrite Hstep. split; [reflexivity | exact Hb].
Defined.

(** [store_measurements_last_wins] for two pm25 measurements. *)
Lemma store_measurements_last_wins_witness :
  "pm25" <> "__proto__" /\
  exists pollutants : list (string * value),
    store_measurements (fun _ => "") (fun _ => NaN)
      (map measurement_value [pm25_measurement 10; pm25_measurement 20]) []
    = Normal pollutants /\
    exists s : string,
      own pollutants "pm25" = Some (pollutant_entry (pm25_measurement 20) s).
Proof.
  assert (Hp : "pm25" <> "__proto__") by discriminate.
  split; [exact Hp |].
  destruct (store_measurements_last_wins (fun _ => "") (fun _ => NaN)
              [pm25_measurement 10; pm25_measurement 20] "pm25" Hp)
    as (pollutants & Hstore & _ & Hlast).
  exists pollutants. split; [exact Hstore |].
  cbn in Hlast. destruct Hlast as (s & _ & Hown).
  exists s. exact Hown.
Defined.
